(** * The batch engine of the Apten profile switcher (streamlit_app.py)

    A shallow embedding of [AptenAPIStreamlit] (the retrying transport and
    the lookup / switch workflow) and of [process_csv] (the per-row
    orchestration), with the properties the specification states about them.

    Python values are embedded as [pyval]; Python characters are [ascii]
    values read as the code points U+0000 to U+00FF.  The remote server, the
    clock and the Streamlit widgets are an explicit state: a world that
    answers HTTP requests, and the chronological trace of everything the
    program did to its environment. *)

From Stdlib Require Import ZArith QArith List Ascii String Bool Lia.
From Stdlib Require Import DecimalString.
From Stdlib Require Import Floats.SpecFloat.
From Stdlib Require Import Sorting.Sorted.
From stdpp Require Import base option list strings gmap.

Local Open Scope string_scope.
Local Open Scope Z_scope.
Local Open Scope list_scope.
(* [++] appends lists, [+:+] strings. *)

Set Warnings "-register-all".

(* ===================================================================== *)
(** ** Python values *)

(** The values a cell of the DataFrame and a decoded JSON body can hold.
    A dict keeps its items in insertion order. *)
Inductive pyval : Type :=
| PNone
| PBool (b : bool)
| PInt (z : Z)
| PFloat (f : spec_float)
| PStr (s : string)
| PList (items : list pyval)
| PDict (items : list (string * pyval)).

(** The float an empty CSV cell is read as. *)
Definition NaN : pyval := PFloat S754_nan.

(** Python's truth test ([if v:], [not v], [a and b]). *)
Definition truthy (v : pyval) : bool :=
  match v with
  | PNone => false
  | PBool b => b
  | PInt z => negb (z =? 0)%Z
  | PFloat (S754_zero _) => false
  | PFloat _ => true
  | PStr s => negb (String.eqb s "")
  | PList items => match items with [] => false | _ => true end
  | PDict items => match items with [] => false | _ => true end
  end.

(** Exceptions that escape the functions modelled here. *)
Inductive exn : Type :=
| AttributeError (attribute : string)
| TypeError (operands : string).

Inductive pyresult (A : Type) : Type :=
| Ok (a : A)
| Raise (e : exn).
Arguments Ok {A} a.
Arguments Raise {A} e.

(* ===================================================================== *)
(** ** Strings *)

Definition code (c : ascii) : N := N_of_ascii c.

(** [str.isdigit] on U+0000..U+00FF: the decimal digits and the superscript
    digits U+00B2, U+00B3, U+00B9. *)
Definition isdigit (c : ascii) : bool :=
  let n := code c in
  ((48 <=? n) && (n <=? 57) || (n =? 178) || (n =? 179) || (n =? 185))%N.

(** [str.isspace] on U+0000..U+00FF. *)
Definition isspace (c : ascii) : bool :=
  let n := code c in
  ((9 <=? n) && (n <=? 13) || (28 <=? n) && (n <=? 32)
   || (n =? 133) || (n =? 160))%N.

(** [''.join(filter(pred, s))] *)
Fixpoint join_filter (pred : ascii -> bool) (s : string) : string :=
  match s with
  | EmptyString => EmptyString
  | String c rest =>
      if pred c then String c (join_filter pred rest) else join_filter pred rest
  end.

Fixpoint lstrip (s : string) : string :=
  match s with
  | EmptyString => EmptyString
  | String c rest => if isspace c then lstrip rest else s
  end.

Fixpoint rstrip (s : string) : string :=
  match s with
  | EmptyString => EmptyString
  | String c rest =>
      match rstrip rest with
      | EmptyString => if isspace c then EmptyString else String c EmptyString
      | kept => String c kept
      end
  end.

(** [s.strip()] *)
Definition strip (s : string) : string := rstrip (lstrip s).

(** [s[:n]] *)
Fixpoint slice_to (n : nat) (s : string) : string :=
  match n, s with
  | S n', String c rest => String c (slice_to n' rest)
  | _, _ => EmptyString
  end.

(** [s.upper()] on the ASCII letters, which is all the comparison with
    ['GET'] and ['POST'] can see. *)
Definition upper_char (c : ascii) : ascii :=
  let n := code c in
  if ((97 <=? n) && (n <=? 122))%N then ascii_of_N (n - 32) else c.

Fixpoint upper (s : string) : string :=
  match s with
  | EmptyString => EmptyString
  | String c rest => String (upper_char c) (upper rest)
  end.

(** [str(z)] for an int. *)
Definition str_int (z : Z) : string := NilZero.string_of_int (Z.to_int z).

(** [not s] for a str. *)
Definition is_empty (s : string) : bool := String.eqb s "".

(** [template.format(name=value)] for a template whose only replacement
    field is [{name}], with [value] already formatted. *)
Fixpoint format_skip (field value : string) (skip : nat) (template : string) : string :=
  match template with
  | EmptyString => EmptyString
  | String c rest =>
      match skip with
      | S k => format_skip field value k rest
      | O =>
          if String.prefix field template
          then value +:+ format_skip field value (String.length field - 1) rest
          else String c (format_skip field value O rest)
      end
  end.

Definition format_field (name value template : string) : string :=
  format_skip ("{" +:+ name +:+ "}") value O template.

(* ===================================================================== *)
(** ** Rows, dicts, requests and responses *)

(** [row.get(key, '')] on a row of the DataFrame. *)
Definition row_get (r : gmap string pyval) (key : string) : pyval :=
  default (PStr "") (r !! key).

(** Lookup in the items of a dict; a later binding of a key replaces an
    earlier one, as it does when the dict is built. *)
Fixpoint items_get (items : list (string * pyval)) (key : string) : option pyval :=
  match items with
  | [] => None
  | (k, v) :: rest =>
      match items_get rest key with
      | Some v' => Some v'
      | None => if String.eqb k key then Some v else None
      end
  end.

Inductive verb : Type := GET | POST.

(** The keyword arguments the two callers forward to [requests]. *)
Inductive kwargs : Type :=
| Params (params : list (string * string))
| Json (payload : pyval).

Record request : Type := {
  req_verb : verb;
  req_url : string;
  req_headers : list (string * string);
  req_timeout : Z;
  req_kwargs : kwargs
}.

(** A [requests.Response]: [json] is [None] when [response.json()] raises
    [ValueError]. *)
Record response : Type := {
  status_code : Z;
  text : string;
  json : option pyval
}.

(** What one call of [requests.get] / [requests.post] does: it returns a
    response or raises.  [OtherException] is whatever line 74 catches, with
    [str(e)] as its description: an exception of the call other than the
    two named ones, and also one that [response.json()] raises at line 44
    when it is not a [ValueError] (the request is sent in both cases, and
    line 75 makes the same message of both). *)
Inductive http_result : Type :=
| Response (r : response)
| Timeout
| ConnectionError
| OtherException (description : string).

(** Everything the program does to its environment, in order. *)
Inductive event : Type :=
| Http (req : request)
| Sleep (seconds : Q)
| ProgressBar (value : Z)
| Placeholder
| Progress (numerator denominator : Z)
| StatusText (body : string)
| ProgressEmpty
| StatusEmpty.

(* ===================================================================== *)
(** ** Constants *)

Definition API_BASE_URL : string := "https://api.attent.app/v1".
Definition REQUEST_TIMEOUT : Z := 30.
Definition MAX_RETRIES : Z := 3.
Definition RETRY_DELAY : Z := 1.

(** [range(n)] *)
Definition range (n : Z) : list Z := map Z.of_nat (seq 0 (Z.to_nat n)).

Record AptenAPIStreamlit : Type := {
  headers : list (string * string);
  lookup_endpoint : string;
  switch_profile_endpoint : string
}.

Definition __init__ (api_key : string) : AptenAPIStreamlit :=
  {| headers := [("x-api-key", api_key); ("Content-Type", "application/json")];
     lookup_endpoint := API_BASE_URL +:+ "/leads/lookup";
     switch_profile_endpoint := API_BASE_URL +:+ "/leads/{leadId}/switchCustomerProfile" |}.

Record lead_data : Type := {
  phone : string;
  target_profile : string;
  first_name : pyval;
  last_name : pyval
}.

(** One entry of [results]. *)
Record outcome : Type := {
  Row_Number : Z;
  First_Name : pyval;
  Last_Name : pyval;
  Phone : pyval;
  Target_Profile : pyval;
  Lead_ID : pyval;
  Status : string;
  Error_Message : string
}.

(** What lines 147-181 of [process_csv] decide about a row. *)
Inductive validation : Type :=
| InvalidPhone
| MissingProfile (phone : string)
| Normalized (phone target_profile : string).

(* ===================================================================== *)
(** ** The engine *)

Declare Scope py_scope.
Delimit Scope py_scope with py.

Section Engine.

(** The server side: a state and the answer to one HTTP call. *)
Context {World : Type}.
Variable http_call : request -> World -> http_result * World.

(** [str(v)] for the values whose text is not spelled out in [py_str]:
    finite floats, lists and dicts. *)
Variable py_repr : pyval -> string.

Record state : Type := { world : World; trace : list event }.

Definition M (A : Type) : Type := state -> pyresult A * state.

Definition ret {A : Type} (a : A) : M A := fun st => (Ok a, st).

Definition raise {A : Type} (e : exn) : M A := fun st => (Raise e, st).

Definition bind {A B : Type} (m : M A) (k : A -> M B) : M B :=
  fun st =>
    match m st with
    | (Ok a, st') => k a st'
    | (Raise e, st') => (Raise e, st')
    end.

Local Notation "'let*' x ':=' m 'in' k" := (bind m (fun x => k))
  (at level 10, x pattern, m at level 200, k at level 200) : py_scope.
Local Open Scope py_scope.

Definition emit (e : event) : M unit :=
  fun st => (Ok tt, {| world := world st; trace := trace st ++ [e] |}).

(** [requests.get(...)] / [requests.post(...)] *)
Definition requests_call (req : request) : M http_result :=
  fun st =>
    let (r, w) := http_call req (world st) in
    (Ok r, {| world := w; trace := trace st ++ [Http req] |}).

(** The world answers successive calls of [req] with [rs]. *)
Inductive answers (req : request) : World -> list http_result -> World -> Prop :=
| answers_nil w : answers req w [] w
| answers_cons w r w' rs w'' :
    http_call req w = (r, w') -> answers req w' rs w'' ->
    answers req w (r :: rs) w''.

(** [time.sleep(seconds)] *)
Definition sleep (seconds : Q) : M unit := emit (Sleep seconds).

(** [str(v)], also what an f-string and [str.format] insert. *)
Definition py_str (v : pyval) : string :=
  match v with
  | PStr s => s
  | PNone => "None"
  | PBool true => "True"
  | PBool false => "False"
  | PInt z => str_int z
  | PFloat S754_nan => "nan"
  | PFloat (S754_infinity false) => "inf"
  | PFloat (S754_infinity true) => "-inf"
  | PFloat (S754_zero false) => "0.0"
  | PFloat (S754_zero true) => "-0.0"
  | _ => py_repr v
  end.

(** [v.strip()] *)
Definition method_strip (v : pyval) : M string :=
  match v with
  | PStr s => ret (strip s)
  | _ => raise (AttributeError "strip")
  end.

(** [v.get(key, dflt)] *)
Definition method_get (v : pyval) (key : string) (dflt : pyval) : M pyval :=
  match v with
  | PDict items => ret (default dflt (items_get items key))
  | _ => raise (AttributeError "get")
  end.

Definition build_request (self : AptenAPIStreamlit) (v : verb) (url : string)
    (kw : kwargs) : request :=
  {| req_verb := v; req_url := url; req_headers := headers self;
     req_timeout := REQUEST_TIMEOUT; req_kwargs := kw |}.

(** Lines 42-75: what the result of one attempt leads to. [continue]
    is the rest of the loop. *)
Definition classify (attempt : Z) (continue : M (bool * pyval * string))
    (r : http_result) : M (bool * pyval * string) :=
  match r with
  | Response response =>
      if status_code response =? 200 then
        match json response with
        | Some data => ret (true, data, "")
        | None => ret (false, PNone, "Invalid JSON response")
        end
      else if status_code response =? 401 then
        ret (false, PNone, "Unauthorized - check your API key")
      else if status_code response =? 404 then
        ret (false, PNone, "Lead not found")
      else if status_code response =? 429 then
        if attempt <? MAX_RETRIES - 1 then
          let* _ := sleep (inject_Z (RETRY_DELAY * 2)) in continue
        else ret (false, PNone, "Rate limited")
      else
        let error_msg :=
          "HTTP " +:+ str_int (status_code response) +:+ ": "
          +:+ slice_to 200 (text response) in
        if attempt <? MAX_RETRIES - 1 then
          let* _ := sleep (inject_Z RETRY_DELAY) in continue
        else ret (false, PNone, error_msg)
  | Timeout =>
      if attempt <? MAX_RETRIES - 1 then
        let* _ := sleep (inject_Z RETRY_DELAY) in continue
      else ret (false, PNone, "Request timed out")
  | ConnectionError =>
      if attempt <? MAX_RETRIES - 1 then
        let* _ := sleep (inject_Z RETRY_DELAY) in continue
      else ret (false, PNone, "Connection error")
  | OtherException e => ret (false, PNone, "Unexpected error: " +:+ e)
  end.

(** [for attempt in range(MAX_RETRIES)] over the attempts that are left,
    and the [return] after the loop. *)
Fixpoint attempts_loop (self : AptenAPIStreamlit) (method url : string)
    (kw : kwargs) (attempts : list Z) : M (bool * pyval * string) :=
  match attempts with
  | [] => ret (false, PNone, "Failed after " +:+ str_int MAX_RETRIES +:+ " attempts")
  | attempt :: rest =>
      let continue := attempts_loop self method url kw rest in
      if String.eqb (upper method) "GET" then
        let* r := requests_call (build_request self GET url kw) in
        classify attempt continue r
      else if String.eqb (upper method) "POST" then
        let* r := requests_call (build_request self POST url kw) in
        classify attempt continue r
      else ret (false, PNone, "Unsupported HTTP method: " +:+ method)
  end.

Definition _make_request_with_retry (self : AptenAPIStreamlit)
    (method url : string) (kw : kwargs) : M (bool * pyval * string) :=
  attempts_loop self method url kw (range MAX_RETRIES).

Definition lookup_lead (self : AptenAPIStreamlit) (phone : string)
    : M (bool * pyval * string) :=
  let params := [("phone", phone)] in
  let* (success, data, error) :=
    _make_request_with_retry self "GET" (lookup_endpoint self) (Params params) in
  if success && truthy data then
    let* lead_id := method_get data "id" (PStr "") in
    if truthy lead_id then ret (true, lead_id, "")
    else ret (false, PNone,
              "No lead ID in response. Response: " +:+ slice_to 100 (py_str data))
  else ret (false, PNone, error).

Definition switch_payload (target_profile : string) : pyval :=
  PDict [("profile", PStr target_profile); ("sendMessage", PBool true);
         ("messageDelayHours", PInt 0); ("messageDelayMins", PInt 0);
         ("clearMemory", PBool false)].

Definition switch_profile (self : AptenAPIStreamlit) (lead_id : pyval)
    (target_profile : string) : M (bool * string) :=
  let url := format_field "leadId" (py_str lead_id) (switch_profile_endpoint self) in
  let payload := switch_payload target_profile in
  let* (success, data, error) :=
    _make_request_with_retry self "POST" url (Json payload) in
  if success then ret (true, "") else ret (false, error).

Definition process_lead (self : AptenAPIStreamlit) (ld : lead_data)
    : M (bool * pyval * string) :=
  let phone := phone ld in
  let target_profile := target_profile ld in
  let* (success, lead_id, error) := lookup_lead self phone in
  if negb success then ret (false, PStr "", error)
  else
    let* (success, error) := switch_profile self lead_id target_profile in
    if success then ret (true, lead_id, "") else ret (false, lead_id, error).

(** Lines 147-169 of [process_csv]: the cleaned phone and the target
    profile of a row, or the check that rejects it. *)
Definition normalize (r : gmap string pyval) : M validation :=
  let phone := join_filter isdigit (py_str (row_get r "Mobile Phone")) in
  if is_empty phone then ret InvalidPhone
  else
    let* target_profile := method_strip (row_get r "Customer Profile") in
    let* target_profile :=
      if is_empty target_profile
      then method_strip (row_get r "Customer Profile - MOVE")
      else ret target_profile in
    if is_empty target_profile then ret (MissingProfile phone)
    else ret (Normalized phone target_profile).

(** The body of [for idx, row in df.iterrows()], on the loop's variables
    [results], [successful_count] and [failed_count]. *)
Definition loop_body (api : AptenAPIStreamlit) (total_rows idx : Z)
    (r : gmap string pyval) (vars : list outcome * Z * Z)
    : M (list outcome * Z * Z) :=
  let '(results, successful_count, failed_count) := vars in
  let* checked := normalize r in
  match checked with
  | InvalidPhone =>
      ret (results ++ [ {| Row_Number := idx + 2;
                           First_Name := row_get r "First Name";
                           Last_Name := row_get r "Last Name";
                           Phone := row_get r "Mobile Phone";
                           Target_Profile := row_get r "Customer Profile";
                           Lead_ID := PStr "";
                           Status := "FAILED";
                           Error_Message := "Invalid phone number" |} ],
           successful_count, failed_count + 1)
  | MissingProfile phone =>
      ret (results ++ [ {| Row_Number := idx + 2;
                           First_Name := row_get r "First Name";
                           Last_Name := row_get r "Last Name";
                           Phone := PStr phone;
                           Target_Profile := PStr "";
                           Lead_ID := PStr "";
                           Status := "FAILED";
                           Error_Message := "No target profile specified" |} ],
           successful_count, failed_count + 1)
  | Normalized phone target_profile =>
      let ld := {| phone := phone; target_profile := target_profile;
                   first_name := row_get r "First Name";
                   last_name := row_get r "Last Name" |} in
      let lead_name := strip (py_str (first_name ld) +:+ " " +:+ py_str (last_name ld)) in
      let* _ := emit (StatusText ("Processing " +:+ str_int (idx + 1) +:+ "/"
                                  +:+ str_int total_rows +:+ ": " +:+ lead_name)) in
      let* (success, lead_id, error_message) := process_lead api ld in
      let '(successful_count, failed_count, status) :=
        if success then (successful_count + 1, failed_count, "SUCCESS")
        else (successful_count, failed_count + 1, "FAILED") in
      let results :=
        results ++ [ {| Row_Number := idx + 2;
                        First_Name := first_name ld;
                        Last_Name := last_name ld;
                        Phone := PStr phone;
                        Target_Profile := PStr target_profile;
                        Lead_ID := lead_id;
                        Status := status;
                        Error_Message := error_message |} ] in
      let* _ := emit (Progress (idx + 1) total_rows) in
      let* _ := if idx <? total_rows - 1 then sleep (1 # 10)%Q else ret tt in
      ret (results, successful_count, failed_count)
  end.

(** [df.iterrows()] of a DataFrame with the default index: the rows from
    position [idx] on. *)
Fixpoint iterrows (api : AptenAPIStreamlit) (total_rows idx : Z)
    (rows : list (gmap string pyval)) (vars : list outcome * Z * Z)
    : M (list outcome * Z * Z) :=
  match rows with
  | [] => ret vars
  | r :: rest =>
      let* vars' := loop_body api total_rows idx r vars in
      iterrows api total_rows (idx + 1) rest vars'
  end.

(** [df] is the list of its rows, and the index is the default one, so
    that [idx] is the position of the row; [process_csv_indexed] below
    takes a frame with whatever index it has. *)
Definition process_csv (df : list (gmap string pyval)) (api_key : string)
    : M (list outcome * Z * Z) :=
  let api := __init__ api_key in
  let results := [] in
  let* _ := emit (ProgressBar 0) in
  let* _ := emit Placeholder in
  let total_rows := Z.of_nat (length df) in
  let successful_count := 0 in
  let failed_count := 0 in
  let* vars := iterrows api total_rows 0 df (results, successful_count, failed_count) in
  let* _ := emit ProgressEmpty in
  let* _ := emit StatusEmpty in
  ret vars.

(** *** Frames with an index of their own *)

(** The label of a row in the index of the frame, which is what line 146
    binds [idx] to.  [pd.read_csv] numbers the rows 0, 1, ... when the data
    lines have as many fields as the header (the default index, which
    [iterrows] and [process_csv] above take); when they have one field
    more, the first field of each line becomes the label of its row.
    Labels that are Python integers and labels that are text are followed
    here; other labels (floats, dates) are not. *)
Inductive label : Type :=
| IntLabel (i : Z)
| TextLabel (s : string).

(** The body of the loop for the row labelled [idx].  With a text label
    the first use of [idx] raises: [idx + 2] at line 153 or 172 for a row
    that validation rejects, [idx + 1] at line 192 for one it accepts,
    before anything is shown or sent. *)
Definition loop_body_indexed (api : AptenAPIStreamlit) (total_rows : Z)
    (idx : label) (r : gmap string pyval) (vars : list outcome * Z * Z)
    : M (list outcome * Z * Z) :=
  match idx with
  | IntLabel i => loop_body api total_rows i r vars
  | TextLabel _ =>
      let* _ := normalize r in
      raise (TypeError "str + int")
  end.

(** [for idx, row in df.iterrows()] over the rows with their labels. *)
Fixpoint iterrows_indexed (api : AptenAPIStreamlit) (total_rows : Z)
    (df : list (label * gmap string pyval)) (vars : list outcome * Z * Z)
    : M (list outcome * Z * Z) :=
  match df with
  | [] => ret vars
  | (idx, r) :: rest =>
      let* vars' := loop_body_indexed api total_rows idx r vars in
      iterrows_indexed api total_rows rest vars'
  end.

(** [process_csv] on a frame given with its index. *)
Definition process_csv_indexed (df : list (label * gmap string pyval))
    (api_key : string) : M (list outcome * Z * Z) :=
  let api := __init__ api_key in
  let results := [] in
  let* _ := emit (ProgressBar 0) in
  let* _ := emit Placeholder in
  let total_rows := Z.of_nat (length df) in
  let successful_count := 0 in
  let failed_count := 0 in
  let* vars :=
    iterrows_indexed api total_rows df (results, successful_count, failed_count) in
  let* _ := emit ProgressEmpty in
  let* _ := emit StatusEmpty in
  ret vars.

(** The request [lookup_lead] sends for [phone]. *)
Definition lookup_request (api : AptenAPIStreamlit) (phone : string) : request :=
  build_request api GET (lookup_endpoint api) (Params [("phone", phone)]).

(** The request [switch_profile] sends for [lead_id] and [target_profile]. *)
Definition switch_request (api : AptenAPIStreamlit) (lead_id : pyval)
    (target_profile : string) : request :=
  build_request api POST
    (format_field "leadId" (py_str lead_id) (switch_profile_endpoint api))
    (Json (switch_payload target_profile)).

End Engine.

Arguments state World : clear implicits.
Arguments M World A : clear implicits.

(* ===================================================================== *)
(** ** Reading traces and results *)

(** The HTTP attempts of a trace, in order. *)
Definition http_calls (tr : list event) : list request :=
  omap (fun e => match e with Http req => Some req | _ => None end) tr.

(** The progress reports of a trace, in order. *)
Definition progress_reports (tr : list event) : list (Z * Z) :=
  omap (fun e => match e with Progress n d => Some (n, d) | _ => None end) tr.

(** The blocking waits of a trace, in order. *)
Definition sleeps (tr : list event) : list Q :=
  omap (fun e => match e with Sleep d => Some d | _ => None end) tr.

(** The pause of lines 219-221 after row [idx] of [total_rows]. *)
Definition pause (total_rows idx : Z) : list event :=
  if idx <? total_rows - 1 then [Sleep (1 # 10)%Q] else [].

(** The text of line 192 for row [idx]. *)
Definition processing_text (py_repr : pyval -> string) (total_rows idx : Z)
    (r : gmap string pyval) : string :=
  "Processing " +:+ str_int (idx + 1) +:+ "/" +:+ str_int total_rows +:+ ": "
  +:+ strip (py_str py_repr (row_get r "First Name") +:+ " "
             +:+ py_str py_repr (row_get r "Last Name")).

(** The state once line 192 has shown which row is being processed. *)
Definition announced {World : Type} (py_repr : pyval -> string)
    (total_rows idx : Z) (r : gmap string pyval) (st : state World) : state World :=
  {| world := world st;
     trace := trace st ++ [StatusText (processing_text py_repr total_rows idx r)] |}.

(** The state once lines 215-221 have reported progress and paused. *)
Definition reported {World : Type} (total_rows idx : Z) (st : state World)
    : state World :=
  {| world := world st;
     trace := trace st ++ [Progress (idx + 1) total_rows] ++ pause total_rows idx |}.

(** The state once [event]s have happened and left the world as [w]. *)
Definition after {World : Type} (st : state World) (w : World)
    (events : list event) : state World :=
  {| world := w; trace := trace st ++ events |}.

(** The entry of [results] for a row that reached [process_lead]. *)
Definition processed_outcome (idx : Z) (r : gmap string pyval)
    (phone target_profile : string) (lead_id : pyval) (success : bool)
    (error_message : string) : outcome :=
  {| Row_Number := idx + 2;
     First_Name := row_get r "First Name";
     Last_Name := row_get r "Last Name";
     Phone := PStr phone;
     Target_Profile := PStr target_profile;
     Lead_ID := lead_id;
     Status := if success then "SUCCESS" else "FAILED";
     Error_Message := error_message |}.

Definition has_status (code : Z) (r : http_result) : Prop :=
  match r with
  | Response response => status_code response = code
  | _ => False
  end.

(** The number of outcomes with a given status. *)
Definition count_status (status : string) (results : list outcome) : Z :=
  Z.of_nat (length (List.filter (fun o => String.eqb (Status o) status) results)).

(** [o] is the outcome of row [r], found at position [idx]. *)
Definition outcome_of_row (idx : Z) (r : gmap string pyval) (o : outcome) : Prop :=
  Row_Number o = idx + 2
  /\ First_Name o = row_get r "First Name"
  /\ Last_Name o = row_get r "Last Name".

(** [outcomes] holds one outcome per row of [rows], in the order of the
    rows, the first row being at position [idx]. *)
Fixpoint in_row_order (idx : Z) (rows : list (gmap string pyval))
    (outcomes : list outcome) : Prop :=
  match rows, outcomes with
  | [], [] => True
  | r :: rows', o :: outcomes' =>
      outcome_of_row idx r o /\ in_row_order (idx + 1) rows' outcomes'
  | _, _ => False
  end.

(** Both profile cells of the row, where present, hold text. *)
Definition profiles_are_text (r : gmap string pyval) : Prop :=
  (exists s, row_get r "Customer Profile" = PStr s)
  /\ (exists s, row_get r "Customer Profile - MOVE" = PStr s).

(** Every truthy body the server sends with a 200 is a JSON object. *)
Definition bodies_are_dicts {World : Type}
    (http_call : request -> World -> http_result * World) : Prop :=
  forall req w response w' data,
    http_call req w = (Response response, w') ->
    status_code response = 200 -> json response = Some data ->
    truthy data = true -> exists items, data = PDict items.

(** How the diagnostic of line 90 starts. *)
Definition diagnostic_prefix : string := "No lead ID in response. Response: ".

(** What [_make_request_with_retry] can return: success with an empty
    error, or failure with [None] and an error that is not the diagnostic
    of [lookup_lead]. *)
Definition transport_result (res : pyresult (bool * pyval * string)) : Prop :=
  match res with
  | Ok (true, _, error) => error = ""
  | Ok (false, data, error) =>
      data = PNone /\ String.prefix diagnostic_prefix error = false
  | Raise _ => False
  end.

(** [data] is a dict whose ['id'] is absent or empty (fails the truth test). *)
Definition id_absent_or_empty (data : pyval) : Prop :=
  exists items, data = PDict items /\
    (items_get items "id" = None \/
     exists v, items_get items "id" = Some v /\ truthy v = false).

(* ===================================================================== *)
(** ** Reading the retry policy *)

(** The [requests] function that a method name selects (lines 35-40). *)
Definition verb_of (method : string) : option verb :=
  if String.eqb (upper method) "GET" then Some GET
  else if String.eqb (upper method) "POST" then Some POST
  else None.

(** The answers after which the loop goes on when attempts are left: a
    status other than 200, 401 and 404, a timeout, a connection error. *)
Definition retryable (r : http_result) : bool :=
  match r with
  | Response response =>
      negb (status_code response =? 200) && negb (status_code response =? 401)
      && negb (status_code response =? 404)
  | Timeout | ConnectionError => true
  | OtherException _ => false
  end.

(** The sleep between a retryable answer and the next attempt. *)
Definition backoff (r : http_result) : Q :=
  match r with
  | Response response =>
      if status_code response =? 429 then inject_Z (RETRY_DELAY * 2)
      else inject_Z RETRY_DELAY
  | _ => inject_Z RETRY_DELAY
  end.

(** The error returned when a retryable answer comes at the last attempt. *)
Definition exhausted_error (r : http_result) : string :=
  match r with
  | Response response =>
      if status_code response =? 429 then "Rate limited"
      else "HTTP " +:+ str_int (status_code response) +:+ ": "
           +:+ slice_to 200 (text response)
  | Timeout => "Request timed out"
  | ConnectionError => "Connection error"
  | OtherException e => "Unexpected error: " +:+ e
  end.

(** The error of an answer that fails the call at once, at any attempt. *)
Definition terminal_error (r : http_result) : option string :=
  match r with
  | Response response =>
      if status_code response =? 200 then
        match json response with
        | Some _ => None
        | None => Some "Invalid JSON response"
        end
      else if status_code response =? 401 then
        Some "Unauthorized - check your API key"
      else if status_code response =? 404 then Some "Lead not found"
      else None
  | OtherException e => Some ("Unexpected error: " +:+ e)
  | _ => None
  end.

(** The events of the attempts answered by [rs], each followed by its
    sleep. *)
Definition retries (req : request) (rs : list http_result) : list event :=
  flat_map (fun r => [Http req; Sleep (backoff r)]) rs.

(** How answer [a] settles a call: a 200 that parses succeeds with its
    body, a terminal error fails with its message, and a retryable answer
    fails with its own message when it comes at the last attempt. *)
Definition settles (a : http_result) (last : bool) (res : bool * pyval * string)
    : Prop :=
  (exists response data,
     a = Response response /\ status_code response = 200
     /\ json response = Some data /\ res = (true, data, ""))
  \/ (exists error, terminal_error a = Some error /\ res = (false, PNone, error))
  \/ (retryable a = true /\ last = true
      /\ res = (false, PNone, exhausted_error a)).

(** The events of one call of [_make_request_with_retry] that sends [req]:
    between one and [MAX_RETRIES] attempts, a sleep after each but the
    last. *)
Definition transport_events (req : request) (ev : list event) : Prop :=
  exists rs,
    ev = retries req rs ++ [Http req]
    /\ Z.of_nat (length rs) < MAX_RETRIES
    /\ Forall (fun a => retryable a = true) rs.

(** The attempts [k], ..., [k + m - 1] of [range]. *)
Definition attempts_from (k m : nat) : list Z := map Z.of_nat (seq k m).

(** [s] is made of characters that satisfy [pred]. *)
Fixpoint all_chars (pred : ascii -> bool) (s : string) : bool :=
  match s with
  | EmptyString => true
  | String c rest => pred c && all_chars pred rest
  end.

(** Validation can read the row: the phone check rejects it, or the
    profile cells that lines 165-167 get to hold text. *)
Definition readable (py_repr : pyval -> string) (r : gmap string pyval) : bool :=
  if is_empty (join_filter isdigit (py_str py_repr (row_get r "Mobile Phone")))
  then true
  else
    match row_get r "Customer Profile" with
    | PStr s =>
        if is_empty (strip s) then
          match row_get r "Customer Profile - MOVE" with
          | PStr _ => true
          | _ => false
          end
        else true
    | _ => false
    end.

(** The shapes an entry of [results] can have: SUCCESS with a lead id and
    no error; FAILED without a lead id; FAILED with a lead id and an
    error. *)
Definition well_formed (o : outcome) : Prop :=
  (Status o = "SUCCESS" /\ Error_Message o = "" /\ truthy (Lead_ID o) = true)
  \/ (Status o = "FAILED"
      /\ (Lead_ID o = PStr ""
          \/ (truthy (Lead_ID o) = true /\ Error_Message o <> ""))).

(* ===================================================================== *)
(** ** Reading the index of a frame *)

(** [df.index] *)
Definition df_index (df : list (label * gmap string pyval)) : list label :=
  map fst df.

(** The rows of the frame, without their labels. *)
Definition df_rows (df : list (label * gmap string pyval))
    : list (gmap string pyval) :=
  map snd df.

(** [RangeIndex(n)], the default index: the labels 0, 1, ..., n - 1. *)
Definition RangeIndex (n : nat) : list label :=
  map (fun i => IntLabel (Z.of_nat i)) (seq 0 n).

(** The frame [pd.read_csv] makes of [rows] when the data lines have as
    many fields as the header. *)
Definition with_default_index (rows : list (gmap string pyval))
    : list (label * gmap string pyval) :=
  combine (RangeIndex (length rows)) rows.

(* ===================================================================== *)
(** ** The checks and the summary of [main] *)

(** Lines 272-273. *)
Definition required_columns : list string :=
  ["First Name"; "Last Name"; "Mobile Phone"].
Definition profile_columns : list string :=
  ["Customer Profile"; "Customer Profile - MOVE"].

(** [col in df.columns] *)
Definition in_columns (col : string) (columns : list string) : bool :=
  existsb (String.eqb col) columns.

(** Line 275: [[col for col in required_columns if col not in df.columns]] *)
Definition missing_columns (columns : list string) : list string :=
  List.filter (fun col => negb (in_columns col columns)) required_columns.

(** Line 276: [any(col in df.columns for col in profile_columns)] *)
Definition has_profile_column (columns : list string) : bool :=
  existsb (fun col => in_columns col columns) profile_columns.

(** [sep.join(items)] *)
Fixpoint join (sep : string) (items : list string) : string :=
  match items with
  | [] => ""
  | [item] => item
  | item :: rest => item +:+ sep +:+ join sep rest
  end.

(** Lines 278-284: what [main] shows once the file is read, an error that
    lists the missing required columns, an error about the profile column,
    or the button that starts the batch. *)
Inductive preflight : Type :=
| MissingRequiredColumns (listed : string)
| MissingProfileColumn
| ProcessButton.

Definition check_columns (columns : list string) : preflight :=
  let missing_columns := missing_columns columns in
  let has_profile_column := has_profile_column columns in
  match missing_columns with
  | _ :: _ => MissingRequiredColumns (join ", " missing_columns)
  | [] => if negb has_profile_column then MissingProfileColumn else ProcessButton
  end.

(** Lines 301-305: the three counts that [main] shows after the batch. *)
Record metrics : Type := {
  Total_Processed : Z;
  Successful : Z;
  Failed : Z
}.

Definition summary (returned : list outcome * Z * Z) : metrics :=
  let '(results, successful_count, failed_count) := returned in
  {| Total_Processed := Z.of_nat (length results);
     Successful := successful_count;
     Failed := failed_count |}.

(** Line 313: whether the warning and the table of failed leads are shown. *)
Definition shows_failed (returned : list outcome * Z * Z) : bool :=
  let '(results, successful_count, failed_count) := returned in
  0 <? failed_count.

(** Line 315: [results_df[results_df['Status'] == 'FAILED']] *)
Definition failed_df (results : list outcome) : list outcome :=
  List.filter (fun o => String.eqb (Status o) "FAILED") results.

(* ===================================================================== *)
(** ** A scripted server, to run the engine on concrete inputs *)

(** The world is the list of the results still to come. *)
Definition scripted (req : request) (w : list http_result)
    : http_result * list http_result :=
  match w with
  | r :: rest => (r, rest)
  | [] => (ConnectionError, [])
  end.

(** [repr] of values made of None, bools, ints, lists, dicts and strings of
    plain characters (no quote, backslash or control character); the digits
    of a finite float are not worked out, it prints as [?]. *)
Fixpoint plain_repr (v : pyval) : string :=
  match v with
  | PNone => "None"
  | PBool true => "True"
  | PBool false => "False"
  | PInt z => str_int z
  | PFloat S754_nan => "nan"
  | PFloat (S754_infinity false) => "inf"
  | PFloat (S754_infinity true) => "-inf"
  | PFloat (S754_zero false) => "0.0"
  | PFloat (S754_zero true) => "-0.0"
  | PFloat (S754_finite _ _ _) => "?"
  | PStr s => "'" +:+ s +:+ "'"
  | PList items =>
      "[" +:+ (fix elements (l : list pyval) : string :=
                 match l with
                 | [] => ""
                 | [x] => plain_repr x
                 | x :: rest => plain_repr x +:+ ", " +:+ elements rest
                 end) items +:+ "]"
  | PDict items =>
      "{" +:+ (fix elements (l : list (string * pyval)) : string :=
                 match l with
                 | [] => ""
                 | [(k, x)] => "'" +:+ k +:+ "': " +:+ plain_repr x
                 | (k, x) :: rest =>
                     "'" +:+ k +:+ "': " +:+ plain_repr x +:+ ", " +:+ elements rest
                 end) items +:+ "}"
  end.

Definition start (script : list http_result) : state (list http_result) :=
  {| world := script; trace := [] |}.

Definition ok_json (body : pyval) : http_result :=
  Response {| status_code := 200; text := ""; json := Some body |}.

Definition status_only (code : Z) : http_result :=
  Response {| status_code := code; text := ""; json := None |}.

Definition row_of (cells : list (string * pyval)) : gmap string pyval :=
  list_to_map cells.

Definition vip_row : gmap string pyval :=
  row_of [("First Name", PStr "Ada"); ("Last Name", PStr "Byron");
          ("Mobile Phone", PStr "(555) 123-4567"); ("Customer Profile", PStr "VIP")].

(** A row whose [Customer Profile] cell was left empty in the CSV. *)
Definition move_row : gmap string pyval :=
  row_of [("First Name", PStr "Ada"); ("Last Name", PStr "Byron");
          ("Mobile Phone", PStr "5551234567"); ("Customer Profile", NaN);
          ("Customer Profile - MOVE", PStr "VIP")].

Definition dashes_row : gmap string pyval :=
  row_of [("First Name", PStr "Bob"); ("Last Name", PStr "Cole");
          ("Mobile Phone", PStr "---"); ("Customer Profile", PStr "VIP")].

Definition blank_profile_row : gmap string pyval :=
  row_of [("First Name", PStr "Cy"); ("Last Name", PStr "Dee");
          ("Mobile Phone", PStr "555-0100"); ("Customer Profile", PStr "  ");
          ("Customer Profile - MOVE", PStr "")].

(** A row whose two profile cells were left empty in the CSV. *)
Definition empty_profiles_row : gmap string pyval :=
  row_of [("First Name", PStr "Eli"); ("Last Name", PStr "Fox");
          ("Mobile Phone", PStr "555-0123"); ("Customer Profile", NaN);
          ("Customer Profile - MOVE", NaN)].

Definition demo_api : AptenAPIStreamlit := __init__ "key".

Definition found_abc123 : http_result := ok_json (PDict [("id", PStr "abc123")]).

(** A server that gives the same answer to every request. *)
Definition steady (a : http_result) (req : request) (w : unit)
    : http_result * unit :=
  (a, w).

Definition idle : state unit := {| world := tt; trace := [] |}.

Definition lookup_abc : request := lookup_request demo_api "5551234567".

Definition switch_abc : request :=
  switch_request plain_repr demo_api (PStr "abc123") "VIP".

(** A row whose [Customer Profile] is blank and whose fallback is set. *)
Definition fallback_row : gmap string pyval :=
  row_of [("First Name", PStr "Dot"); ("Last Name", PStr "Eve");
          ("Mobile Phone", PStr "5550199"); ("Customer Profile", PStr " ");
          ("Customer Profile - MOVE", PStr " Gold ")].

Definition lookup_params : kwargs := Params [("phone", "5551234567")].

Definition unavailable : http_result :=
  Response {| status_code := 503; text := "down"; json := None |}.

(* ===================================================================== *)
(** ** Properties *)

Section Properties.

Context {World : Type}.
Variable http_call : request -> World -> http_result * World.
Variable py_repr : pyval -> string.

Implicit Types (st : state World) (r : gmap string pyval).
Implicit Types (api : AptenAPIStreamlit) (results : list outcome).

(** *** The monad *)

Lemma bind_Ok {A B : Type} (m : M World A) (k : A -> M World B) st a st' :
  m st = (Ok a, st') -> bind m k st = k a st'.
Proof. intros H. unfold bind. now rewrite H. Qed.

Lemma bind_Raise {A B : Type} (m : M World A) (k : A -> M World B) st e st' :
  m st = (Raise e, st') -> bind m k st = (Raise e, st').
Proof. intros H. unfold bind. now rewrite H. Qed.

Lemma bind_inv_Ok {A B : Type} (m : M World A) (k : A -> M World B) st b st' :
  bind m k st = (Ok b, st') ->
  exists a st1, m st = (Ok a, st1) /\ k a st1 = (Ok b, st').
Proof.
  unfold bind. destruct (m st) as [[a | e] st1]; intros H.
  - now exists a, st1.
  - discriminate.
Qed.

(** *** Validation *)

(** Validation reads the row only: its result does not depend on the
    state, and it leaves the state as it was. *)
Lemma normalize_pure r :
  exists v, forall st, normalize py_repr r st = (v, st).
Proof.
  unfold normalize, bind, method_strip, ret.
  destruct (is_empty (join_filter _ _)); [now eexists |].
  destruct (row_get r "Customer Profile") as [| | | | s | |];
    try (now eexists).
  destruct (is_empty (strip s)) eqn:E; [| rewrite ?E; now eexists].
  destruct (row_get r "Customer Profile - MOVE") as [| | | | s' | |];
    try (now eexists).
  destruct (is_empty (strip s')); now eexists.
Qed.

Lemma normalize_InvalidPhone r st :
  join_filter isdigit (py_str py_repr (row_get r "Mobile Phone")) = "" ->
  normalize py_repr r st = (Ok InvalidPhone, st).
Proof. intros H. unfold normalize. now rewrite H. Qed.

Lemma is_empty_false s : s <> "" -> is_empty s = false.
Proof. intros H. unfold is_empty. now apply String.eqb_neq. Qed.

Lemma is_empty_true s : is_empty s = true -> s = "".
Proof. unfold is_empty. apply String.eqb_eq. Qed.

Lemma normalize_MissingProfile r st primary fallback :
  join_filter isdigit (py_str py_repr (row_get r "Mobile Phone")) <> "" ->
  row_get r "Customer Profile" = PStr primary -> strip primary = "" ->
  row_get r "Customer Profile - MOVE" = PStr fallback -> strip fallback = "" ->
  normalize py_repr r st
  = (Ok (MissingProfile
           (join_filter isdigit (py_str py_repr (row_get r "Mobile Phone")))), st).
Proof.
  intros Hphone Hp Hp' Hf Hf'. unfold normalize.
  rewrite (is_empty_false _ Hphone), Hp, Hf.
  unfold bind. cbn [method_strip ret]. rewrite Hp'. cbn [is_empty String.eqb].
  cbn [method_strip ret]. now rewrite Hf'.
Qed.

(** *** The loop body, case by case *)

Lemma loop_body_InvalidPhone api total_rows idx r results successful_count
    failed_count st :
  normalize py_repr r st = (Ok InvalidPhone, st) ->
  loop_body http_call py_repr api total_rows idx r
    (results, successful_count, failed_count) st
  = (Ok (results ++ [ {| Row_Number := idx + 2;
                         First_Name := row_get r "First Name";
                         Last_Name := row_get r "Last Name";
                         Phone := row_get r "Mobile Phone";
                         Target_Profile := row_get r "Customer Profile";
                         Lead_ID := PStr "";
                         Status := "FAILED";
                         Error_Message := "Invalid phone number" |} ],
         successful_count, failed_count + 1), st).
Proof. intros H. unfold loop_body. now rewrite (bind_Ok _ _ _ _ _ H). Qed.

Lemma loop_body_MissingProfile api total_rows idx r results successful_count
    failed_count st phone :
  normalize py_repr r st = (Ok (MissingProfile phone), st) ->
  loop_body http_call py_repr api total_rows idx r
    (results, successful_count, failed_count) st
  = (Ok (results ++ [ {| Row_Number := idx + 2;
                         First_Name := row_get r "First Name";
                         Last_Name := row_get r "Last Name";
                         Phone := PStr phone;
                         Target_Profile := PStr "";
                         Lead_ID := PStr "";
                         Status := "FAILED";
                         Error_Message := "No target profile specified" |} ],
         successful_count, failed_count + 1), st).
Proof. intros H. unfold loop_body. now rewrite (bind_Ok _ _ _ _ _ H). Qed.

Lemma loop_body_Normalized api total_rows idx r results successful_count
    failed_count st phone target_profile success lead_id error_message st2 :
  normalize py_repr r st = (Ok (Normalized phone target_profile), st) ->
  process_lead http_call py_repr api
    {| phone := phone; target_profile := target_profile;
       first_name := row_get r "First Name";
       last_name := row_get r "Last Name" |}
    (announced py_repr total_rows idx r st)
  = (Ok (success, lead_id, error_message), st2) ->
  loop_body http_call py_repr api total_rows idx r
    (results, successful_count, failed_count) st
  = (Ok (results ++ [processed_outcome idx r phone target_profile lead_id
                       success error_message],
         if success then successful_count + 1 else successful_count,
         if success then failed_count else failed_count + 1),
     reported total_rows idx st2).
Proof.
  intros Hn Hp. unfold loop_body. rewrite (bind_Ok _ _ _ _ _ Hn).
  unfold bind at 1. cbn [emit].
  change {| world := world st; trace := _ |}
    with (announced py_repr total_rows idx r st).
  rewrite (bind_Ok _ _ _ _ _ Hp).
  unfold reported, pause, processed_outcome, bind, emit, sleep, ret.
  destruct success, (idx <? total_rows - 1); cbn; now rewrite <- ?app_assoc.
Qed.

Lemma loop_body_Raise api total_rows idx r results successful_count
    failed_count st phone target_profile e st2 :
  normalize py_repr r st = (Ok (Normalized phone target_profile), st) ->
  process_lead http_call py_repr api
    {| phone := phone; target_profile := target_profile;
       first_name := row_get r "First Name";
       last_name := row_get r "Last Name" |}
    (announced py_repr total_rows idx r st)
  = (Raise e, st2) ->
  loop_body http_call py_repr api total_rows idx r
    (results, successful_count, failed_count) st
  = (Raise e, st2).
Proof.
  intros Hn Hp. unfold loop_body. rewrite (bind_Ok _ _ _ _ _ Hn).
  unfold bind at 1. cbn [emit].
  change {| world := world st; trace := _ |}
    with (announced py_repr total_rows idx r st).
  now rewrite (bind_Raise _ _ _ _ _ Hp).
Qed.

(** *** The transport *)

Lemma requests_call_eq req st (result : http_result) w :
  http_call req (world st) = (result, w) ->
  requests_call http_call req st = (Ok result, after st w [Http req]).
Proof. intros H. unfold requests_call. now rewrite H. Qed.

Lemma bind_requests_call {B : Type} req (k : http_result -> M World B) st
    (result : http_result) w :
  http_call req (world st) = (result, w) ->
  bind (requests_call http_call req) k st = k result (after st w [Http req]).
Proof. intros H. apply bind_Ok. now apply requests_call_eq. Qed.

Lemma attempts_loop_GET api url kw attempt rest st :
  attempts_loop http_call api "GET" url kw (attempt :: rest) st
  = bind (requests_call http_call (build_request api GET url kw))
      (classify attempt (attempts_loop http_call api "GET" url kw rest)) st.
Proof. reflexivity. Qed.

Lemma attempts_loop_POST api url kw attempt rest st :
  attempts_loop http_call api "POST" url kw (attempt :: rest) st
  = bind (requests_call http_call (build_request api POST url kw))
      (classify attempt (attempts_loop http_call api "POST" url kw rest)) st.
Proof. reflexivity. Qed.

Lemma make_request_attempts api method url kw :
  _make_request_with_retry http_call api method url kw
  = attempts_loop http_call api method url kw [0; 1; 2].
Proof. reflexivity. Qed.

Lemma classify_200 attempt (continue : M World (bool * pyval * string))
    response data st :
  status_code response = 200 -> json response = Some data ->
  classify attempt continue (Response response) st = (Ok (true, data, ""), st).
Proof. intros H1 H2. unfold classify. now rewrite H1, H2. Qed.

Lemma classify_404 attempt (continue : M World (bool * pyval * string))
    response st :
  status_code response = 404 ->
  classify attempt continue (Response response) st
  = (Ok (false, PNone, "Lead not found"), st).
Proof. intros H. unfold classify. now rewrite H. Qed.

Lemma classify_429_retry attempt (continue : M World (bool * pyval * string))
    response st :
  status_code response = 429 -> attempt < MAX_RETRIES - 1 ->
  classify attempt continue (Response response) st
  = continue (after st (world st) [Sleep (inject_Z (RETRY_DELAY * 2))]).
Proof.
  intros H Hlt. unfold classify. rewrite H. cbn [Z.eqb Pos.eqb].
  apply Z.ltb_lt in Hlt. now rewrite Hlt.
Qed.

Lemma classify_429_last attempt (continue : M World (bool * pyval * string))
    response st :
  status_code response = 429 -> ~ attempt < MAX_RETRIES - 1 ->
  classify attempt continue (Response response) st
  = (Ok (false, PNone, "Rate limited"), st).
Proof.
  intros H Hge. unfold classify. rewrite H. cbn [Z.eqb Pos.eqb].
  apply Z.ltb_nlt in Hge. now rewrite Hge.
Qed.

Lemma after_after st w1 ev1 w2 ev2 :
  after (after st w1 ev1) w2 ev2 = after st w2 (ev1 ++ ev2).
Proof. unfold after. cbn. now rewrite app_assoc. Qed.

(** *** The workflow *)

Lemma lookup_lead_unfold api phone st :
  lookup_lead http_call py_repr api phone st
  = bind (_make_request_with_retry http_call api "GET" (lookup_endpoint api)
            (Params [("phone", phone)]))
      (fun '(success, data, error) =>
         if success && truthy data then
           bind (method_get data "id" (PStr ""))
             (fun lead_id =>
                if truthy lead_id then ret (true, lead_id, "")
                else ret (false, PNone,
                          "No lead ID in response. Response: "
                          +:+ slice_to 100 (py_str py_repr data)))
         else ret (false, PNone, error)) st.
Proof. reflexivity. Qed.

Lemma lookup_lead_404 api phone st response w' :
  http_call (lookup_request api phone) (world st) = (Response response, w') ->
  status_code response = 404 ->
  lookup_lead http_call py_repr api phone st
  = (Ok (false, PNone, "Lead not found"),
     after st w' [Http (lookup_request api phone)]).
Proof.
  intros Hcall Hstatus. rewrite lookup_lead_unfold, make_request_attempts.
  assert (H : attempts_loop http_call api "GET" (lookup_endpoint api)
                (Params [("phone", phone)]) [0; 1; 2] st
              = (Ok (false, PNone, "Lead not found"),
                 after st w' [Http (lookup_request api phone)])).
  { rewrite attempts_loop_GET.
    erewrite bind_requests_call by exact Hcall.
    now apply classify_404. }
  now rewrite (bind_Ok _ _ _ _ _ H).
Qed.

Lemma process_lead_lookup_failed api ld st lead_id error st' :
  lookup_lead http_call py_repr api (phone ld) st = (Ok (false, lead_id, error), st') ->
  process_lead http_call py_repr api ld st = (Ok (false, PStr "", error), st').
Proof. intros H. unfold process_lead. now rewrite (bind_Ok _ _ _ _ _ H). Qed.

Lemma process_lead_lookup_ok api ld st lead_id error st1 success error' st2 :
  lookup_lead http_call py_repr api (phone ld) st = (Ok (true, lead_id, error), st1) ->
  switch_profile http_call py_repr api lead_id (target_profile ld) st1
  = (Ok (success, error'), st2) ->
  process_lead http_call py_repr api ld st
  = (Ok (success, lead_id, if success then "" else error'), st2).
Proof.
  intros H1 H2. unfold process_lead. rewrite (bind_Ok _ _ _ _ _ H1).
  cbn [negb]. rewrite (bind_Ok _ _ _ _ _ H2). now destruct success.
Qed.

Lemma switch_profile_unfold api lead_id target_profile st :
  switch_profile http_call py_repr api lead_id target_profile st
  = bind (attempts_loop http_call api "POST"
            (req_url (switch_request py_repr api lead_id target_profile))
            (Json (switch_payload target_profile)) [0; 1; 2])
      (fun '(success, _, error) =>
         if success then ret (true, "") else ret (false, error)) st.
Proof. reflexivity. Qed.

Lemma switch_profile_rate_limited api lead_id target_profile st rs w' :
  answers http_call (switch_request py_repr api lead_id target_profile)
    (world st) rs w' ->
  Z.of_nat (length rs) = MAX_RETRIES ->
  Forall (has_status 429) rs ->
  switch_profile http_call py_repr api lead_id target_profile st
  = (Ok (false, "Rate limited"),
     after st w'
       [Http (switch_request py_repr api lead_id target_profile);
        Sleep (inject_Z (RETRY_DELAY * 2));
        Http (switch_request py_repr api lead_id target_profile);
        Sleep (inject_Z (RETRY_DELAY * 2));
        Http (switch_request py_repr api lead_id target_profile)]).
Proof.
  intros Hans Hlen Hall.
  unfold MAX_RETRIES in Hlen.
  destruct rs as [| r1 [| r2 [| r3 [| r4 rs]]]];
    try (exfalso; cbn [length] in Hlen; lia).
  inversion Hans as [| w0 r1' w1 rs1 w1' Hc1 Hans1]; subst.
  inversion Hans1 as [| w0 r2' w2 rs2 w2' Hc2 Hans2]; subst.
  inversion Hans2 as [| w0 r3' w3 rs3 w3' Hc3 Hans3]; subst.
  inversion Hans3; subst.
  inversion Hall as [| x1 l1 Hr1 Hall1]; subst.
  inversion Hall1 as [| x2 l2 Hr2 Hall2]; subst.
  inversion Hall2 as [| x3 l3 Hr3 Hall3]; subst.
  destruct r1 as [resp1 | | |]; try contradiction.
  destruct r2 as [resp2 | | |]; try contradiction.
  destruct r3 as [resp3 | | |]; try contradiction.
  cbn [has_status] in Hr1, Hr2, Hr3.
  rewrite switch_profile_unfold.
  set (req := switch_request py_repr api lead_id target_profile) in *.
  assert (H : attempts_loop http_call api "POST" (req_url req)
                (Json (switch_payload target_profile)) [0; 1; 2] st
              = (Ok (false, PNone, "Rate limited"),
                 after st w'
                   [Http req; Sleep (inject_Z (RETRY_DELAY * 2));
                    Http req; Sleep (inject_Z (RETRY_DELAY * 2)); Http req])).
  { rewrite attempts_loop_POST.
    erewrite bind_requests_call by exact Hc1.
    rewrite classify_429_retry by (assumption || reflexivity).
    rewrite attempts_loop_POST.
    erewrite bind_requests_call by exact Hc2.
    rewrite classify_429_retry by (assumption || reflexivity).
    rewrite attempts_loop_POST.
    erewrite bind_requests_call by exact Hc3.
    rewrite classify_429_last by (assumption || (cbv; congruence)).
    now rewrite !after_after. }
  now rewrite (bind_Ok _ _ _ _ _ H).
Qed.

Lemma lookup_lead_200 api phone st response data w' :
  http_call (lookup_request api phone) (world st) = (Response response, w') ->
  status_code response = 200 -> json response = Some data ->
  lookup_lead http_call py_repr api phone st
  = (if truthy data then
       bind (method_get data "id" (PStr ""))
         (fun lead_id =>
            if truthy lead_id then ret (true, lead_id, "")
            else ret (false, PNone,
                      "No lead ID in response. Response: "
                      +:+ slice_to 100 (py_str py_repr data)))
     else ret (false, PNone, ""))
      (after st w' [Http (lookup_request api phone)]).
Proof.
  intros Hcall Hstatus Hjson. rewrite lookup_lead_unfold, make_request_attempts.
  assert (H : attempts_loop http_call api "GET" (lookup_endpoint api)
                (Params [("phone", phone)]) [0; 1; 2] st
              = (Ok (true, data, ""),
                 after st w' [Http (lookup_request api phone)])).
  { rewrite attempts_loop_GET.
    erewrite bind_requests_call by exact Hcall.
    now apply classify_200. }
  now rewrite (bind_Ok _ _ _ _ _ H).
Qed.

Lemma switch_profile_200 api lead_id target_profile st response data w' :
  http_call (switch_request py_repr api lead_id target_profile) (world st)
  = (Response response, w') ->
  status_code response = 200 -> json response = Some data ->
  switch_profile http_call py_repr api lead_id target_profile st
  = (Ok (true, ""),
     after st w' [Http (switch_request py_repr api lead_id target_profile)]).
Proof.
  intros Hcall Hstatus Hjson. rewrite switch_profile_unfold.
  set (req := switch_request py_repr api lead_id target_profile) in *.
  assert (H : attempts_loop http_call api "POST" (req_url req)
                (Json (switch_payload target_profile)) [0; 1; 2] st
              = (Ok (true, data, ""), after st w' [Http req])).
  { rewrite attempts_loop_POST.
    erewrite bind_requests_call by exact Hcall.
    now apply classify_200. }
  now rewrite (bind_Ok _ _ _ _ _ H).
Qed.

(** *** Rows rejected by validation *)


(** Where both profile fields hold text: a row whose two profile fields
    are both empty once trimmed gets one FAILED outcome with an empty lead
    id, in the state the loop body started from (no transport call).  The
    phone is checked first: the message is "No target profile specified"
    when the cleaned phone is not empty, and "Invalid phone number",
    alone, when it is. *)
Theorem missing_profile_fails_without_transport api total_rows idx r results
    successful_count failed_count st primary fallback :
  row_get r "Customer Profile" = PStr primary -> strip primary = "" ->
  row_get r "Customer Profile - MOVE" = PStr fallback -> strip fallback = "" ->
  exists o,
    loop_body http_call py_repr api total_rows idx r
      (results, successful_count, failed_count) st
    = (Ok (results ++ [o], successful_count, failed_count + 1), st)
    /\ Status o = "FAILED"
    /\ Lead_ID o = PStr ""
    /\ Error_Message o
       = (if is_empty (join_filter isdigit
                         (py_str py_repr (row_get r "Mobile Phone")))
          then "Invalid phone number"
          else "No target profile specified").
Proof.
  intros Hp Hp' Hf Hf'.
  destruct (is_empty _) eqn:E.
  - eexists. split.
    + apply loop_body_InvalidPhone, normalize_InvalidPhone.
      now apply is_empty_true.
    + now cbn.
  - eexists. split.
    + apply loop_body_MissingProfile.
      apply (normalize_MissingProfile r st primary fallback); try assumption.
      intros Heq. rewrite Heq in E. discriminate.
    + now cbn.
Qed.

(** C4, at the input on which the code departs from it.  A row whose phone
    is valid and whose two profile cells are empty in the CSV (both read
    as NaN) gets no outcome: line 165 raises AttributeError, in the state
    the loop body started from, whatever [idx] is and whatever the server
    does; and the batch that holds the row returns nothing, not even the
    outcome of the row before it. *)
Theorem empty_profile_cells_raise_instead_of_failing api total_rows idx vars st
    api_key st0 :
  loop_body http_call py_repr api total_rows idx empty_profiles_row vars st
  = (Raise (AttributeError "strip"), st)
  /\ process_csv http_call py_repr [dashes_row; empty_profiles_row] api_key st0
     = (Raise (AttributeError "strip"),
        after st0 (world st0) [ProgressBar 0; Placeholder]).
Proof.
  assert (Hn : forall st1, normalize py_repr empty_profiles_row st1
                           = (Raise (AttributeError "strip"), st1)).
  { intros st1. reflexivity. }
  assert (Hbody : forall api1 total idx1 vars1 st1,
             loop_body http_call py_repr api1 total idx1 empty_profiles_row vars1 st1
             = (Raise (AttributeError "strip"), st1)).
  { intros api1 total idx1 [[results successful_count] failed_count] st1.
    unfold loop_body. now rewrite (bind_Raise _ _ _ _ _ (Hn st1)). }
  split; [apply Hbody |].
  unfold process_csv. unfold bind at 1 2. cbn [emit world trace iterrows length].
  assert (Hd : forall st1, normalize py_repr dashes_row st1 = (Ok InvalidPhone, st1)).
  { intros st1. reflexivity. }
  unfold bind at 1 2.
  rewrite (loop_body_InvalidPhone _ _ _ _ _ _ _ _ (Hd _)).
  unfold bind at 1. rewrite Hbody.
  unfold after. cbn [world trace]. now rewrite <- app_assoc.
Qed.

(** *** Rows that reach the remote workflow *)

(** C5. For a validated row, when the lookup is answered with HTTP 404
    the loop body sends that one request and nothing else, and records
    an outcome with an empty lead id, FAILED, "Lead not found". *)
Theorem lookup_404_fails_after_one_attempt api total_rows idx r results
    successful_count failed_count st phone target_profile response w' :
  normalize py_repr r st = (Ok (Normalized phone target_profile), st) ->
  http_call (lookup_request api phone) (world st) = (Response response, w') ->
  status_code response = 404 ->
  exists o st',
    loop_body http_call py_repr api total_rows idx r
      (results, successful_count, failed_count) st
    = (Ok (results ++ [o], successful_count, failed_count + 1), st')
    /\ http_calls (trace st') = http_calls (trace st) ++ [lookup_request api phone]
    /\ sleeps (trace st') = sleeps (trace st) ++ sleeps (pause total_rows idx)
    /\ world st' = w'
    /\ Lead_ID o = PStr ""
    /\ Status o = "FAILED"
    /\ Error_Message o = "Lead not found".
Proof.
  intros Hn Hcall Hstatus.
  pose proof (lookup_lead_404 api phone (announced py_repr total_rows idx r st)
                response w' Hcall Hstatus) as Hlookup.
  pose proof (loop_body_Normalized api total_rows idx r results successful_count
                failed_count st phone target_profile false (PStr "")
                "Lead not found" _ Hn
                (process_lead_lookup_failed api
                   {| phone := phone; target_profile := target_profile;
                      first_name := row_get r "First Name";
                      last_name := row_get r "Last Name" |}
                   _ _ _ _ Hlookup)) as Hbody.
  eexists. eexists. split; [exact Hbody |].
  unfold http_calls, sleeps, reported, after, announced, pause. cbn [trace world].
  rewrite !omap_app. cbn [omap]. rewrite !app_nil_r.
  repeat split; try reflexivity.
  destruct (idx <? total_rows - 1); cbn; now rewrite ?app_nil_r.
Qed.

(** C6. For a validated row whose lookup yields a lead id, when every one
    of the [MAX_RETRIES] attempts of the switch request is answered with
    HTTP 429, [switch_profile] sends the request exactly [MAX_RETRIES]
    times, sleeps [RETRY_DELAY * 2] before each retry, and the outcome
    carries the lead id, FAILED and "Rate limited". *)
Theorem switch_429_exhausts_retries api total_rows idx r results
    successful_count failed_count st phone target_profile lead_id error st1
    rs w' :
  normalize py_repr r st = (Ok (Normalized phone target_profile), st) ->
  lookup_lead http_call py_repr api phone (announced py_repr total_rows idx r st)
  = (Ok (true, lead_id, error), st1) ->
  answers http_call (switch_request py_repr api lead_id target_profile)
    (world st1) rs w' ->
  Z.of_nat (length rs) = MAX_RETRIES ->
  Forall (has_status 429) rs ->
  exists o mutate_events,
    loop_body http_call py_repr api total_rows idx r
      (results, successful_count, failed_count) st
    = (Ok (results ++ [o], successful_count, failed_count + 1),
       reported total_rows idx (after st1 w' mutate_events))
    /\ mutate_events
       = [Http (switch_request py_repr api lead_id target_profile);
          Sleep (inject_Z (RETRY_DELAY * 2));
          Http (switch_request py_repr api lead_id target_profile);
          Sleep (inject_Z (RETRY_DELAY * 2));
          Http (switch_request py_repr api lead_id target_profile)]
    /\ Z.of_nat (length (http_calls mutate_events)) = MAX_RETRIES
    /\ Lead_ID o = lead_id
    /\ Status o = "FAILED"
    /\ Error_Message o = "Rate limited".
Proof.
  intros Hn Hlookup Hans Hlen Hall.
  pose proof (switch_profile_rate_limited api lead_id target_profile st1 rs w'
                Hans Hlen Hall) as Hswitch.
  pose proof (process_lead_lookup_ok api
                {| phone := phone; target_profile := target_profile;
                   first_name := row_get r "First Name";
                   last_name := row_get r "Last Name" |}
                _ _ _ _ _ _ _ Hlookup Hswitch) as Hlead.
  pose proof (loop_body_Normalized api total_rows idx r results successful_count
                failed_count st phone target_profile _ _ _ _ Hn Hlead) as Hbody.
  eexists. eexists. split; [exact Hbody |].
  repeat split; reflexivity.
Qed.

(** C8. The row with phone "(555) 123-4567" and profile "VIP" is
    normalized to "5551234567" and "VIP"; when the lookup is answered
    200 with [{"id": "abc123"}] and the switch 200 with a body that
    parses, the outcome has row number [idx + 2], lead id "abc123",
    SUCCESS and an empty error message. *)
Theorem vip_scenario api total_rows idx r results successful_count
    failed_count st lookup_text switch_text switch_body w1 w2 :
  r !! "Mobile Phone" = Some (PStr "(555) 123-4567") ->
  r !! "Customer Profile" = Some (PStr "VIP") ->
  http_call (lookup_request api "5551234567") (world st)
  = (Response {| status_code := 200; text := lookup_text;
                 json := Some (PDict [("id", PStr "abc123")]) |}, w1) ->
  http_call (switch_request py_repr api (PStr "abc123") "VIP") w1
  = (Response {| status_code := 200; text := switch_text;
                 json := Some switch_body |}, w2) ->
  normalize py_repr r st = (Ok (Normalized "5551234567" "VIP"), st)
  /\ exists st',
      loop_body http_call py_repr api total_rows idx r
        (results, successful_count, failed_count) st
      = (Ok (results ++ [ {| Row_Number := idx + 2;
                             First_Name := row_get r "First Name";
                             Last_Name := row_get r "Last Name";
                             Phone := PStr "5551234567";
                             Target_Profile := PStr "VIP";
                             Lead_ID := PStr "abc123";
                             Status := "SUCCESS";
                             Error_Message := "" |} ],
             successful_count + 1, failed_count), st').
Proof.
  intros Hphone Hprofile Hlookup Hswitch.
  assert (Hn : normalize py_repr r st = (Ok (Normalized "5551234567" "VIP"), st)).
  { unfold normalize, row_get. rewrite Hphone, Hprofile. reflexivity. }
  split; [exact Hn |].
  set (st0 := announced py_repr total_rows idx r st).
  assert (Hl : lookup_lead http_call py_repr api "5551234567" st0
               = (Ok (true, PStr "abc123", ""),
                  after st0 w1 [Http (lookup_request api "5551234567")])).
  { erewrite lookup_lead_200 by (exact Hlookup || reflexivity). reflexivity. }
  pose proof (switch_profile_200 api (PStr "abc123") "VIP"
                (after st0 w1 [Http (lookup_request api "5551234567")])
                _ switch_body w2 Hswitch eq_refl eq_refl) as Hs.
  pose proof (process_lead_lookup_ok api
                {| phone := "5551234567"; target_profile := "VIP";
                   first_name := row_get r "First Name";
                   last_name := row_get r "Last Name" |}
                _ _ _ _ _ _ _ Hl Hs) as Hlead.
  eexists.
  exact (loop_body_Normalized api total_rows idx r results successful_count
           failed_count st _ _ _ _ _ _ Hn Hlead).
Qed.

(** *** What the transport can return *)

Lemma classify_result attempt (continue : M World (bool * pyval * string))
    (result : http_result) st :
  (forall st0, transport_result (fst (continue st0))) ->
  transport_result (fst (classify attempt continue result st)).
Proof.
  intros Hcont. unfold classify, bind, sleep, emit, ret.
  destruct result as [response | | | description].
  - destruct (status_code response =? 200).
    { destruct (json response); cbn; auto. }
    destruct (status_code response =? 401); [cbn; auto |].
    destruct (status_code response =? 404); [cbn; auto |].
    destruct (status_code response =? 429).
    { destruct (attempt <? MAX_RETRIES - 1); [apply Hcont | cbn; auto]. }
    destruct (attempt <? MAX_RETRIES - 1); [apply Hcont | cbn; auto].
  - destruct (attempt <? MAX_RETRIES - 1); [apply Hcont | cbn; auto].
  - destruct (attempt <? MAX_RETRIES - 1); [apply Hcont | cbn; auto].
  - cbn; auto.
Qed.

Lemma attempts_loop_result api method url kw attempts st :
  transport_result (fst (attempts_loop http_call api method url kw attempts st)).
Proof.
  revert st. induction attempts as [| attempt rest IH]; intros st.
  - cbn. auto.
  - cbn [attempts_loop].
    destruct (String.eqb (upper method) "GET").
    { unfold bind, requests_call.
      destruct (http_call _ (world st)) as [result w].
      now apply classify_result. }
    destruct (String.eqb (upper method) "POST").
    { unfold bind, requests_call.
      destruct (http_call _ (world st)) as [result w].
      now apply classify_result. }
    cbn. auto.
Qed.

(** C10. When the lookup is answered 200 with a body that parses to a
    falsy value, [lookup_lead] fails with an empty error message, so that
    the row's outcome is FAILED with an empty lead id and an empty error
    message; and whenever [lookup_lead] does return the "No lead ID in
    response" diagnostic, the transport had succeeded with a truthy body,
    a dict whose ['id'] is absent or fails the truth test. *)
Theorem falsy_lookup_body_gives_empty_error api total_rows idx r results
    successful_count failed_count st phone target_profile response data w' :
  normalize py_repr r st = (Ok (Normalized phone target_profile), st) ->
  http_call (lookup_request api phone) (world st) = (Response response, w') ->
  status_code response = 200 -> json response = Some data ->
  truthy data = false ->
  lookup_lead http_call py_repr api phone (announced py_repr total_rows idx r st)
  = (Ok (false, PNone, ""),
     after (announced py_repr total_rows idx r st) w'
       [Http (lookup_request api phone)])
  /\ (exists st',
       loop_body http_call py_repr api total_rows idx r
         (results, successful_count, failed_count) st
       = (Ok (results ++ [processed_outcome idx r phone target_profile
                            (PStr "") false ""],
              successful_count, failed_count + 1), st'))
  /\ (forall phone0 st0 success lead_id error st1,
       lookup_lead http_call py_repr api phone0 st0
       = (Ok (success, lead_id, error), st1) ->
       String.prefix diagnostic_prefix error = true ->
       exists body st2,
         _make_request_with_retry http_call api "GET" (lookup_endpoint api)
           (Params [("phone", phone0)]) st0
         = (Ok (true, body, ""), st2)
         /\ truthy body = true
         /\ id_absent_or_empty body).
Proof.
  intros Hn Hcall Hstatus Hjson Hfalsy.
  assert (Hl : lookup_lead http_call py_repr api phone
                 (announced py_repr total_rows idx r st)
               = (Ok (false, PNone, ""),
                  after (announced py_repr total_rows idx r st) w'
                    [Http (lookup_request api phone)])).
  { erewrite lookup_lead_200 by eassumption. now rewrite Hfalsy. }
  split; [exact Hl |]. split.
  - eexists.
    exact (loop_body_Normalized api total_rows idx r results successful_count
             failed_count st phone target_profile false (PStr "") "" _ Hn
             (process_lead_lookup_failed api
                {| phone := phone; target_profile := target_profile;
                   first_name := row_get r "First Name";
                   last_name := row_get r "Last Name" |}
                _ _ _ _ Hl)).
  - clear. intros phone0 st0 success lead_id error st1 Hlookup Hdiag.
    rewrite lookup_lead_unfold in Hlookup.
    apply bind_inv_Ok in Hlookup as ([[ok body] err] & st2 & Hreq & Hrest).
    pose proof (attempts_loop_result api "GET" (lookup_endpoint api)
                  (Params [("phone", phone0)]) [0; 1; 2] st0) as Hres.
    rewrite make_request_attempts in Hreq. rewrite Hreq in Hres.
    cbn [fst transport_result] in Hres.
    destruct ok; cbn [andb] in Hrest.
    + subst err. destruct (truthy body) eqn:Hbody.
      * destruct body as [| | | | | | items]; try discriminate Hrest.
        unfold bind, method_get, ret in Hrest.
        destruct (truthy (default (PStr "") (items_get items "id"))) eqn:Hid.
        { inversion Hrest; subst. discriminate Hdiag. }
        exists (PDict items), st2.
        rewrite make_request_attempts. repeat split; try assumption.
        exists items. split; [reflexivity |].
        destruct (items_get items "id") as [v |]; [right | now left].
        now exists v.
      * unfold ret in Hrest. inversion Hrest; subst. discriminate Hdiag.
    + destruct Hres as [_ Hno]. unfold ret in Hrest.
      inversion Hrest; subst. congruence.
Qed.

(** *** Validation is a function of the row *)

(** C9. Validating the same row twice gives the same result, the same
    [Normalized] phone and profile, the same rejection, or the same
    exception, whatever the states the two runs start from, and a run
    leaves the state as it found it. *)
Theorem validation_is_deterministic r st st' :
  fst (normalize py_repr r st) = fst (normalize py_repr r st')
  /\ snd (normalize py_repr r st) = st
  /\ fst (normalize py_repr r (snd (normalize py_repr r st)))
     = fst (normalize py_repr r st).
Proof.
  destruct (normalize_pure r) as [v Hv]. now rewrite !Hv.
Qed.

(** *** Progress and pacing *)


(** *** The batch *)

Lemma count_status_cons status o results :
  count_status status (o :: results)
  = count_status status [o] + count_status status results.
Proof.
  unfold count_status. cbn [List.filter].
  destruct (String.eqb (Status o) status); cbn [length]; lia.
Qed.

Local Ltac pick_outcome :=
  lazymatch goal with
  | |- context [?l ++ [?o]] =>
      exists o; unfold outcome_of_row, processed_outcome, count_status;
      cbn; repeat split; repeat f_equal; lia
  end.

(** A normal exit of the loop body appends exactly one outcome, the one
    of the row, and adds one to exactly one counter. *)
Lemma loop_body_inv api total_rows idx r results successful_count
    failed_count st vars st' :
  loop_body http_call py_repr api total_rows idx r
    (results, successful_count, failed_count) st = (Ok vars, st') ->
  exists o,
    outcome_of_row idx r o
    /\ vars = (results ++ [o],
               successful_count + count_status "SUCCESS" [o],
               failed_count + count_status "FAILED" [o])
    /\ count_status "SUCCESS" [o] + count_status "FAILED" [o] = 1.
Proof.
  intros H. destruct (normalize_pure r) as [v Hv]. specialize (Hv st).
  destruct v as [[| phone | phone target_profile] | e].
  - rewrite (loop_body_InvalidPhone _ _ _ _ _ _ _ _ Hv) in H.
    inversion H; subst. pick_outcome.
  - rewrite (loop_body_MissingProfile _ _ _ _ _ _ _ _ _ Hv) in H.
    inversion H; subst. pick_outcome.
  - destruct (process_lead http_call py_repr api
                {| phone := phone; target_profile := target_profile;
                   first_name := row_get r "First Name";
                   last_name := row_get r "Last Name" |}
                (announced py_repr total_rows idx r st))
      as [[[[success lead_id] error_message] | e] st2] eqn:Hlead.
    + rewrite (loop_body_Normalized _ _ _ _ _ _ _ _ _ _ _ _ _ _ Hv Hlead) in H.
      inversion H; subst. destruct success; pick_outcome.
    + rewrite (loop_body_Raise _ _ _ _ _ _ _ _ _ _ _ _ Hv Hlead) in H.
      discriminate.
  - unfold loop_body in H. rewrite (bind_Raise _ _ _ _ _ Hv) in H.
    discriminate.
Qed.

Lemma iterrows_inv api total_rows rows : forall idx results successful_count
    failed_count st vars st',
  iterrows http_call py_repr api total_rows idx rows
    (results, successful_count, failed_count) st = (Ok vars, st') ->
  exists new,
    in_row_order idx rows new
    /\ vars = (results ++ new,
               successful_count + count_status "SUCCESS" new,
               failed_count + count_status "FAILED" new)
    /\ count_status "SUCCESS" new + count_status "FAILED" new
       = Z.of_nat (length rows).
Proof.
  induction rows as [| r rows IH];
    intros idx results successful_count failed_count st vars st' H.
  - cbn in H. inversion H; subst. exists []. cbn.
    rewrite app_nil_r, !Z.add_0_r. auto.
  - cbn [iterrows] in H.
    apply bind_inv_Ok in H as (vars1 & st1 & Hbody & Hrest).
    apply loop_body_inv in Hbody as (o & Ho & -> & Hone).
    apply IH in Hrest as (new & Horder & -> & Hsum).
    exists (o :: new). split; [| split].
    + now cbn.
    + rewrite <- app_assoc. cbn [app].
      rewrite (count_status_cons "SUCCESS" o new), (count_status_cons "FAILED" o new).
      f_equal; [f_equal |]; lia.
    + rewrite (count_status_cons "SUCCESS" o new), (count_status_cons "FAILED" o new).
      cbn [length]. lia.
Qed.

Lemma in_row_order_length rows : forall idx outcomes,
  in_row_order idx rows outcomes -> length outcomes = length rows.
Proof.
  induction rows as [| r rows IH]; intros idx [| o outcomes] H;
    cbn in H; try contradiction; [reflexivity |].
  destruct H as [_ H]. cbn. f_equal. now apply (IH (idx + 1)).
Qed.

(** When [process_csv] returns, [results] holds one outcome per row in
    the order of the rows, and the two counters count its SUCCESS and
    FAILED entries. *)
Lemma process_csv_inv df api_key st results successful_count failed_count st' :
  process_csv http_call py_repr df api_key st
  = (Ok (results, successful_count, failed_count), st') ->
  in_row_order 0 df results
  /\ length results = length df
  /\ successful_count = count_status "SUCCESS" results
  /\ failed_count = count_status "FAILED" results
  /\ successful_count + failed_count = Z.of_nat (length df).
Proof.
  intros H. unfold process_csv in H.
  apply bind_inv_Ok in H as (? & st1 & _ & H).
  apply bind_inv_Ok in H as (? & st2 & _ & H).
  apply bind_inv_Ok in H as (vars & st3 & Hloop & H).
  apply bind_inv_Ok in H as (? & st4 & _ & H).
  apply bind_inv_Ok in H as (? & st5 & _ & H).
  unfold ret in H. inversion H; subst.
  apply iterrows_inv in Hloop as (new & Horder & Hvars & Hsum).
  cbn [app] in Hvars. inversion Hvars; subst.
  repeat split; try assumption; try lia.
  now apply (in_row_order_length df 0).
Qed.

(** C2. When [process_csv] returns, the successful count plus the failed
    count is the number of rows; the two counts are the numbers of SUCCESS
    and of FAILED entries of [results], which has one entry per row; and
    every normal pass through the loop body adds one to exactly one of the
    two counters. *)
Theorem counts_add_up_to_total df api_key st results successful_count
    failed_count st' :
  process_csv http_call py_repr df api_key st
  = (Ok (results, successful_count, failed_count), st') ->
  successful_count + failed_count = Z.of_nat (length df)
  /\ successful_count = count_status "SUCCESS" results
  /\ failed_count = count_status "FAILED" results
  /\ length results = length df
  /\ (forall api total_rows idx r results0 successful0 failed0 st0
             results1 successful1 failed1 st1,
        loop_body http_call py_repr api total_rows idx r
          (results0, successful0, failed0) st0
        = (Ok (results1, successful1, failed1), st1) ->
        (successful1 = successful0 + 1 /\ failed1 = failed0)
        \/ (successful1 = successful0 /\ failed1 = failed0 + 1)).
Proof.
  intros H. apply process_csv_inv in H as (_ & Hlen & Hs & Hf & Hsum).
  repeat split; try assumption.
  clear. intros api total_rows idx r results0 successful0 failed0 st0
    results1 successful1 failed1 st1 Hbody.
  apply loop_body_inv in Hbody as (o & _ & Hvars & Hone).
  inversion Hvars; subst. unfold count_status in *. cbn in *.
  destruct (String.eqb (Status o) "SUCCESS"), (String.eqb (Status o) "FAILED");
    cbn in *; lia.
Qed.

(** C1, at the input on which the code departs from it. A row whose phone
    is valid and whose [Customer Profile] cell is empty in the CSV (read
    as NaN) makes [process_csv] raise AttributeError at line 165, whatever
    the server: no list of outcomes is returned. *)
Theorem empty_profile_cell_aborts_the_batch api_key st :
  process_csv http_call py_repr [move_row] api_key st
  = (Raise (AttributeError "strip"),
     after st (world st) [ProgressBar 0; Placeholder]).
Proof.
  unfold process_csv, bind, emit. cbn [iterrows length].
  unfold loop_body, bind.
  assert (Hn : forall st0, normalize py_repr move_row st0
                           = (Raise (AttributeError "strip"), st0)).
  { intros st0. reflexivity. }
  rewrite Hn. unfold after. cbn [world trace]. now rewrite <- app_assoc.
Qed.

(** *** The inputs on which the batch runs to its end *)

Lemma classify_success attempt (continue : M World (bool * pyval * string))
    (result : http_result) st data error st' :
  classify attempt continue result st = (Ok (true, data, error), st') ->
  (exists response, result = Response response
                    /\ status_code response = 200 /\ json response = Some data)
  \/ (exists st0, continue st0 = (Ok (true, data, error), st')).
Proof.
  unfold classify, bind, sleep, emit, ret.
  destruct result as [response | | | description].
  - destruct (status_code response =? 200) eqn:E200.
    { destruct (json response) eqn:Ej; intros H; inversion H; subst.
      left. exists response. apply Z.eqb_eq in E200. auto. }
    destruct (status_code response =? 401); [discriminate |].
    destruct (status_code response =? 404); [discriminate |].
    destruct (status_code response =? 429).
    { destruct (attempt <? MAX_RETRIES - 1); [eauto | discriminate]. }
    destruct (attempt <? MAX_RETRIES - 1); [eauto | discriminate].
  - destruct (attempt <? MAX_RETRIES - 1); [eauto | discriminate].
  - destruct (attempt <? MAX_RETRIES - 1); [eauto | discriminate].
  - discriminate.
Qed.

(** A body the transport returns was sent by the server with a 200. *)
Lemma attempts_loop_success api method url kw attempts : forall st data error st',
  attempts_loop http_call api method url kw attempts st
  = (Ok (true, data, error), st') ->
  exists req w response w',
    http_call req w = (Response response, w')
    /\ status_code response = 200 /\ json response = Some data.
Proof.
  induction attempts as [| attempt rest IH]; intros st data error st' H.
  - discriminate H.
  - cbn [attempts_loop] in H.
    destruct (String.eqb (upper method) "GET").
    { unfold bind at 1, requests_call in H.
      destruct (http_call _ (world st)) as [result w] eqn:Hcall.
      apply classify_success in H as [(response & -> & H200 & Hj) | (st0 & H)];
        eauto 8. }
    destruct (String.eqb (upper method) "POST").
    { unfold bind at 1, requests_call in H.
      destruct (http_call _ (world st)) as [result w] eqn:Hcall.
      apply classify_success in H as [(response & -> & H200 & Hj) | (st0 & H)];
        eauto 8. }
    discriminate H.
Qed.

(** The transport never raises. *)
Lemma attempts_loop_returns api method url kw attempts st :
  exists res st', attempts_loop http_call api method url kw attempts st = (Ok res, st').
Proof.
  pose proof (attempts_loop_result api method url kw attempts st) as H.
  destruct (attempts_loop _ _ _ _ _ _ _) as [[res | e] st']; [eauto |].
  contradiction.
Qed.

Lemma switch_profile_returns api lead_id target_profile st :
  exists res st',
    switch_profile http_call py_repr api lead_id target_profile st = (Ok res, st').
Proof.
  rewrite switch_profile_unfold.
  destruct (attempts_loop_returns api "POST"
              (req_url (switch_request py_repr api lead_id target_profile))
              (Json (switch_payload target_profile)) [0; 1; 2] st)
    as ([[success data] error] & st' & H).
  rewrite (bind_Ok _ _ _ _ _ H). destruct success; unfold ret; eauto.
Qed.

Lemma lookup_lead_returns api phone st :
  bodies_are_dicts http_call ->
  exists res st', lookup_lead http_call py_repr api phone st = (Ok res, st').
Proof.
  intros Hdicts. rewrite lookup_lead_unfold, make_request_attempts.
  destruct (attempts_loop_returns api "GET" (lookup_endpoint api)
              (Params [("phone", phone)]) [0; 1; 2] st)
    as ([[success data] error] & st' & H).
  rewrite (bind_Ok _ _ _ _ _ H).
  destruct success; cbn [andb]; [| unfold ret; eauto].
  destruct (truthy data) eqn:Htruthy; [| unfold ret; eauto].
  apply attempts_loop_success in H as (req & w & response & w' & Hcall & H200 & Hj).
  destruct (Hdicts _ _ _ _ _ Hcall H200 Hj Htruthy) as [items ->].
  unfold bind, method_get, ret.
  destruct (truthy (default (PStr "") (items_get items "id"))); eauto.
Qed.

Lemma process_lead_returns api ld st :
  bodies_are_dicts http_call ->
  exists res st', process_lead http_call py_repr api ld st = (Ok res, st').
Proof.
  intros Hdicts. unfold process_lead.
  destruct (lookup_lead_returns api (phone ld) st Hdicts)
    as ([[success lead_id] error] & st1 & Hl).
  rewrite (bind_Ok _ _ _ _ _ Hl).
  destruct success; cbn [negb]; [| unfold ret; eauto].
  destruct (switch_profile_returns api lead_id (target_profile ld) st1)
    as ([success error'] & st2 & Hs).
  rewrite (bind_Ok _ _ _ _ _ Hs). destruct success; unfold ret; eauto.
Qed.

Lemma normalize_returns r st :
  profiles_are_text r -> exists checked, normalize py_repr r st = (Ok checked, st).
Proof.
  intros [[s Hs] [s' Hs']]. unfold normalize, bind, method_strip, ret.
  rewrite Hs, Hs'.
  destruct (is_empty (join_filter _ _)); [eauto |].
  destruct (is_empty (strip s)) eqn:E; [| rewrite ?E; eauto].
  destruct (is_empty (strip s')); eauto.
Qed.

Lemma loop_body_returns api total_rows idx r vars st :
  profiles_are_text r -> bodies_are_dicts http_call ->
  exists vars' st',
    loop_body http_call py_repr api total_rows idx r vars st = (Ok vars', st').
Proof.
  intros Htext Hdicts. destruct vars as [[results successful_count] failed_count].
  destruct (normalize_returns r st Htext) as [[| phone | phone target_profile] Hn].
  - rewrite (loop_body_InvalidPhone _ _ _ _ _ _ _ _ Hn). eauto.
  - rewrite (loop_body_MissingProfile _ _ _ _ _ _ _ _ _ Hn). eauto.
  - destruct (process_lead_returns api
                {| phone := phone; target_profile := target_profile;
                   first_name := row_get r "First Name";
                   last_name := row_get r "Last Name" |}
                (announced py_repr total_rows idx r st) Hdicts)
      as ([[success lead_id] error_message] & st2 & Hlead).
    rewrite (loop_body_Normalized _ _ _ _ _ _ _ _ _ _ _ _ _ _ Hn Hlead). eauto.
Qed.

Lemma iterrows_returns api total_rows rows : forall idx vars st,
  Forall profiles_are_text rows -> bodies_are_dicts http_call ->
  exists vars' st',
    iterrows http_call py_repr api total_rows idx rows vars st = (Ok vars', st').
Proof.
  induction rows as [| r rows IH]; intros idx vars st Hrows Hdicts.
  - cbn. unfold ret. eauto.
  - inversion Hrows as [| r0 rows0 Hr Hrest]; subst.
    destruct (loop_body_returns api total_rows idx r vars st Hr Hdicts)
      as (vars1 & st1 & Hbody).
    cbn [iterrows]. rewrite (bind_Ok _ _ _ _ _ Hbody). now apply IH.
Qed.

(** When the profile cells hold text and the server sends objects,
    [process_csv] returns, with one outcome per row in the order of the
    rows. *)
Lemma process_csv_returns df api_key st :
  Forall profiles_are_text df -> bodies_are_dicts http_call ->
  exists results successful_count failed_count st',
    process_csv http_call py_repr df api_key st
    = (Ok (results, successful_count, failed_count), st')
    /\ in_row_order 0 df results
    /\ length results = length df.
Proof.
  intros Hrows Hdicts.
  destruct (iterrows_returns (__init__ api_key) (Z.of_nat (length df)) df 0
              ([], 0, 0)
              (after st (world st) [ProgressBar 0; Placeholder]) Hrows Hdicts)
    as ([[results successful_count] failed_count] & st1 & Hloop).
  assert (H : process_csv http_call py_repr df api_key st
              = (Ok (results, successful_count, failed_count),
                 after st1 (world st1) [ProgressEmpty; StatusEmpty])).
  { unfold process_csv. unfold bind at 1 2. cbn [emit world trace].
    unfold after in Hloop. cbn [world trace] in Hloop.
    rewrite <- app_assoc. cbn [app].
    rewrite (bind_Ok _ _ _ _ _ Hloop).
    unfold bind, emit, ret, after. cbn [world trace].
    now rewrite <- app_assoc. }
  exists results, successful_count, failed_count. eexists. split; [exact H |].
  apply process_csv_inv in H. tauto.
Qed.

End Properties.

(* ===================================================================== *)
(** ** The properties on concrete runs *)

Lemma counts_add_up_witness :
  exists results successful_count failed_count st',
    process_csv scripted plain_repr [vip_row; dashes_row; blank_profile_row] "key"
      (start [found_abc123; ok_json (PDict [])])
    = (Ok (results, successful_count, failed_count), st')
    /\ successful_count = 1 /\ failed_count = 2
    /\ successful_count + failed_count = 3
    /\ length results = 3%nat.
Proof.
  eexists _, _, _, _. split; [vm_compute; reflexivity |].
  pose proof (counts_add_up_to_total scripted plain_repr
                [vip_row; dashes_row; blank_profile_row] "key"
                (start [found_abc123; ok_json (PDict [])]) _ _ _ _ eq_refl)
    as (Hsum & _ & _ & Hlen & _).
  split; [reflexivity |]. split; [reflexivity |].
  split; [exact Hsum | exact Hlen].
Defined.


Lemma missing_profile_witness :
  exists o,
    loop_body scripted plain_repr demo_api 2 0 blank_profile_row ([], 0, 0) (start [])
    = (Ok ([] ++ [o], 0, 0 + 1), start [])
    /\ Status o = "FAILED"
    /\ Lead_ID o = PStr ""
    /\ Error_Message o = "No target profile specified".
Proof.
  apply (missing_profile_fails_without_transport scripted plain_repr demo_api 2 0
           blank_profile_row [] 0 0 (start []) "  " "");
    reflexivity.
Defined.

Lemma lookup_404_witness :
  exists o st',
    loop_body scripted plain_repr demo_api 1 0 vip_row ([], 0, 0)
      (start [status_only 404])
    = (Ok ([] ++ [o], 0, 0 + 1), st')
    /\ http_calls (trace st') = [] ++ [lookup_request demo_api "5551234567"]
    /\ sleeps (trace st') = []
    /\ world st' = []
    /\ Lead_ID o = PStr ""
    /\ Status o = "FAILED"
    /\ Error_Message o = "Lead not found".
Proof.
  apply (lookup_404_fails_after_one_attempt scripted plain_repr demo_api 1 0
           vip_row [] 0 0 (start [status_only 404]) "5551234567" "VIP"
           {| status_code := 404; text := ""; json := None |} []);
    reflexivity.
Defined.

Lemma switch_429_witness :
  exists o mutate_events st1,
    loop_body scripted plain_repr demo_api 1 0 vip_row ([], 0, 0)
      (start [found_abc123; status_only 429; status_only 429; status_only 429])
    = (Ok ([] ++ [o], 0, 0 + 1), reported 1 0 (after st1 [] mutate_events))
    /\ sleeps mutate_events = [2%Q; 2%Q]
    /\ length (http_calls mutate_events) = 3%nat
    /\ Lead_ID o = PStr "abc123"
    /\ Status o = "FAILED"
    /\ Error_Message o = "Rate limited".
Proof.
  destruct (switch_429_exhausts_retries scripted plain_repr demo_api 1 0 vip_row
              [] 0 0
              (start [found_abc123; status_only 429; status_only 429; status_only 429])
              "5551234567" "VIP" (PStr "abc123") ""
              (after (announced plain_repr 1 0 vip_row
                        (start [found_abc123; status_only 429; status_only 429;
                                status_only 429]))
                 [status_only 429; status_only 429; status_only 429]
                 [Http (lookup_request demo_api "5551234567")])
              [status_only 429; status_only 429; status_only 429] [])
    as (o & mutate_events & Hbody & Hev & Hcount & Hid & Hstatus & Herr).
  - reflexivity.
  - reflexivity.
  - repeat (eapply answers_cons; [reflexivity |]). apply answers_nil.
  - reflexivity.
  - repeat constructor.
  - exists o, mutate_events. eexists. split; [exact Hbody |].
    rewrite Hev. repeat split; assumption || reflexivity.
Defined.


Lemma vip_scenario_witness :
  normalize plain_repr vip_row (start [found_abc123; ok_json (PDict [])])
  = (Ok (Normalized "5551234567" "VIP"), start [found_abc123; ok_json (PDict [])])
  /\ exists st',
      loop_body scripted plain_repr demo_api 1 0 vip_row ([], 0, 0)
        (start [found_abc123; ok_json (PDict [])])
      = (Ok ([] ++ [ {| Row_Number := 0 + 2;
                        First_Name := row_get vip_row "First Name";
                        Last_Name := row_get vip_row "Last Name";
                        Phone := PStr "5551234567";
                        Target_Profile := PStr "VIP";
                        Lead_ID := PStr "abc123";
                        Status := "SUCCESS";
                        Error_Message := "" |} ],
             0 + 1, 0), st').
Proof.
  apply (vip_scenario scripted plain_repr demo_api 1 0 vip_row [] 0 0
           (start [found_abc123; ok_json (PDict [])]) "" "" (PDict [])
           [ok_json (PDict [])] []);
    reflexivity.
Defined.

Lemma falsy_lookup_body_witness :
  lookup_lead scripted plain_repr demo_api "5551234567"
    (announced plain_repr 1 0 vip_row (start [ok_json (PDict [])]))
  = (Ok (false, PNone, ""),
     after (announced plain_repr 1 0 vip_row (start [ok_json (PDict [])])) []
       [Http (lookup_request demo_api "5551234567")])
  /\ exists st',
      loop_body scripted plain_repr demo_api 1 0 vip_row ([], 0, 0)
        (start [ok_json (PDict [])])
      = (Ok ([] ++ [processed_outcome 0 vip_row "5551234567" "VIP" (PStr "")
                      false ""], 0, 0 + 1), st').
Proof.
  destruct (falsy_lookup_body_gives_empty_error scripted plain_repr demo_api 1 0
              vip_row [] 0 0 (start [ok_json (PDict [])]) "5551234567" "VIP"
              {| status_code := 200; text := ""; json := Some (PDict []) |}
              (PDict []) [] eq_refl eq_refl eq_refl eq_refl eq_refl)
    as (Hlookup & Hbody & _).
  split; [exact Hlookup | exact Hbody].
Defined.


(** *** Further runs *)

(** The other way out of the batch: a 200 whose body is a truthy value other
    than an object makes [data.get] raise at line 85. *)
Example list_body_aborts_the_batch :
  fst (process_csv scripted plain_repr [vip_row] "key"
         (start [ok_json (PList [PInt 1])]))
  = Raise (AttributeError "get").
Proof. reflexivity. Qed.

Example null_lookup_body :
  fst (lookup_lead scripted plain_repr demo_api "5551234567"
         (start [ok_json PNone]))
  = Ok (false, PNone, "").
Proof. reflexivity. Qed.

Example zero_id_diagnostic :
  fst (lookup_lead scripted plain_repr demo_api "5551234567"
         (start [ok_json (PDict [("id", PInt 0)])]))
  = Ok (false, PNone, "No lead ID in response. Response: {'id': 0}").
Proof. reflexivity. Qed.

Example server_error_retries :
  let st' := snd (lookup_lead scripted plain_repr demo_api "5551234567"
                    (start [status_only 500; Timeout; found_abc123])) in
  sleeps (trace st') = [1%Q; 1%Q] /\ length (http_calls (trace st')) = 3%nat.
Proof. split; reflexivity. Qed.

Example strip_ex : strip "  VIP " = "VIP".
Proof. reflexivity. Qed.

Example format_field_ex :
  switch_profile_endpoint demo_api
  = "https://api.attent.app/v1/leads/{leadId}/switchCustomerProfile"
  /\ format_field "leadId" "abc123" (switch_profile_endpoint demo_api)
     = "https://api.attent.app/v1/leads/abc123/switchCustomerProfile".
Proof. split; reflexivity. Qed.

Example str_int_ex : str_int 404 = "404" /\ str_int (-3) = "-3" /\ str_int 0 = "0".
Proof. repeat split; reflexivity. Qed.

Example upper_ex : upper "get" = "GET".
Proof. reflexivity. Qed.

(* ===================================================================== *)
(** ** Further properties of the engine *)

Section MoreProperties.

Context {World : Type}.
Variable http_call : request -> World -> http_result * World.
Variable py_repr : pyval -> string.

Implicit Types (st : state World) (r : gmap string pyval).
Implicit Types (api : AptenAPIStreamlit) (results : list outcome).
Implicit Types (a : http_result) (rs : list http_result).

(** *** One attempt *)

Lemma classify_retry attempt (continue : M World (bool * pyval * string)) a st :
  retryable a = true -> attempt < MAX_RETRIES - 1 ->
  classify attempt continue a st
  = continue (after st (world st) [Sleep (backoff a)]).
Proof.
  intros Hr Hlt. apply Z.ltb_lt in Hlt. unfold classify, backoff.
  destruct a as [response | | | description]; cbn in Hr; try discriminate;
    rewrite ?Hlt; try reflexivity.
  destruct (status_code response =? 200); [discriminate |].
  destruct (status_code response =? 401); [discriminate |].
  destruct (status_code response =? 404); [discriminate |].
  destruct (status_code response =? 429); reflexivity.
Qed.

Lemma classify_exhausted attempt (continue : M World (bool * pyval * string)) a st :
  retryable a = true -> ~ attempt < MAX_RETRIES - 1 ->
  classify attempt continue a st = (Ok (false, PNone, exhausted_error a), st).
Proof.
  intros Hr Hge. apply Z.ltb_nlt in Hge. unfold classify, exhausted_error.
  destruct a as [response | | | description]; cbn in Hr; try discriminate;
    rewrite ?Hge; try reflexivity.
  destruct (status_code response =? 200); [discriminate |].
  destruct (status_code response =? 401); [discriminate |].
  destruct (status_code response =? 404); [discriminate |].
  destruct (status_code response =? 429); reflexivity.
Qed.

Lemma classify_terminal attempt (continue : M World (bool * pyval * string)) a st
    error :
  terminal_error a = Some error ->
  classify attempt continue a st = (Ok (false, PNone, error), st).
Proof.
  unfold classify, terminal_error.
  destruct a as [response | | | description]; try discriminate.
  - destruct (status_code response =? 200).
    { destruct (json response); [discriminate |]. now intros [= <-]. }
    destruct (status_code response =? 401); [now intros [= <-] |].
    destruct (status_code response =? 404); [now intros [= <-] | discriminate].
  - now intros [= <-].
Qed.

(** An answer is retryable, or a terminal error, or a 200 that parses. *)
Lemma answer_kinds a :
  retryable a = true
  \/ (exists error, terminal_error a = Some error)
  \/ (exists response data,
        a = Response response /\ status_code response = 200
        /\ json response = Some data).
Proof.
  destruct a as [response | | | description]; cbn; auto.
  - destruct (status_code response =? 200) eqn:E200.
    + right. destruct (json response) as [data |] eqn:Ej; [right | left; eauto].
      exists response, data. apply Z.eqb_eq in E200. auto.
    + destruct (status_code response =? 401); [right; left; eauto |].
      destruct (status_code response =? 404); [right; left; eauto | now left].
  - right. left. eauto.
Qed.

Lemma retryable_not_terminal a : retryable a = true -> terminal_error a = None.
Proof.
  destruct a as [response | | | description]; cbn; try easy.
  destruct (status_code response =? 200); [discriminate |].
  destruct (status_code response =? 401); [discriminate |].
  destruct (status_code response =? 404); [discriminate | reflexivity].
Qed.

(** *** The loop of attempts *)

Lemma attempts_loop_step api method v url kw attempt rest st :
  verb_of method = Some v ->
  attempts_loop http_call api method url kw (attempt :: rest) st
  = bind (requests_call http_call (build_request api v url kw))
      (classify attempt (attempts_loop http_call api method url kw rest)) st.
Proof.
  unfold verb_of. cbn [attempts_loop].
  destruct (String.eqb (upper method) "GET"); [now intros [= <-] |].
  destruct (String.eqb (upper method) "POST"); [now intros [= <-] | discriminate].
Qed.

Lemma answers_app_inv req w rs rs' w'' :
  answers http_call req w (rs ++ rs') w'' ->
  exists w', answers http_call req w rs w' /\ answers http_call req w' rs' w''.
Proof.
  revert w. induction rs as [| a rs IH]; intros w H.
  - exists w. split; [constructor | exact H].
  - cbn in H. inversion H as [| w0 a0 w1 rs0 w2 Hcall Hrest]; subst.
    destruct (IH _ Hrest) as (w' & H1 & H2).
    exists w'. split; [econstructor; eauto | exact H2].
Qed.

Lemma answers_app req w rs w' rs' w'' :
  answers http_call req w rs w' -> answers http_call req w' rs' w'' ->
  answers http_call req w (rs ++ rs') w''.
Proof.
  induction 1 as [| w0 a0 w1 rs0 w2 Hcall Hrest IH]; intros H2; [exact H2 |].
  cbn. econstructor; eauto.
Qed.

Lemma retries_app req rs rs' :
  retries req (rs ++ rs') = retries req rs ++ retries req rs'.
Proof. unfold retries. apply flat_map_app. Qed.

(** Answers that are retryable, fewer than the attempts left, take the loop
    to the attempt that follows them. *)
Lemma attempts_loop_skips api method v url kw rs : forall k m st w',
  verb_of method = Some v ->
  answers http_call (build_request api v url kw) (world st) rs w' ->
  Forall (fun a => retryable a = true) rs ->
  (length rs < m)%nat -> (k + m = 3)%nat ->
  attempts_loop http_call api method url kw (attempts_from k m) st
  = attempts_loop http_call api method url kw
      (attempts_from (k + length rs) (m - length rs))
      (after st w' (retries (build_request api v url kw) rs)).
Proof.
  induction rs as [| a rs IH]; intros k m st w' Hv Hans Hall Hlen Hkm.
  - inversion Hans; subst. cbn [length retries flat_map].
    rewrite Nat.add_0_r, Nat.sub_0_r. unfold after. rewrite app_nil_r.
    now destruct st.
  - inversion Hans as [| w0 a0 w1 rs0 w2 Hcall Hrest]; subst.
    inversion Hall as [| a1 rs1 Ha Hall']; subst.
    cbn [length] in Hlen. destruct m as [| m]; [lia |].
    unfold attempts_from at 1. cbn [seq map].
    rewrite (attempts_loop_step api method v url kw _ _ st Hv).
    erewrite bind_requests_call by exact Hcall.
    rewrite classify_retry by (assumption || (unfold MAX_RETRIES; lia)).
    fold (attempts_from (S k) m).
    rewrite (IH (S k) m _ w' Hv) by (assumption || (cbn; lia) || lia).
    rewrite !after_after. cbn [length app].
    replace (k + S (length rs))%nat with (S k + length rs)%nat by lia.
    replace (S m - S (length rs))%nat with (m - length rs)%nat by lia.
    reflexivity.
Qed.

Lemma make_request_from_0 api method url kw :
  _make_request_with_retry http_call api method url kw
  = attempts_loop http_call api method url kw (attempts_from 0 3).
Proof. reflexivity. Qed.

(** After retryable answers [rs], fewer than [MAX_RETRIES], the answer [a]
    is classified at attempt [length rs]. *)
Lemma make_request_decided api method v url kw st rs a w' :
  verb_of method = Some v ->
  answers http_call (build_request api v url kw) (world st) (rs ++ [a]) w' ->
  Forall (fun a => retryable a = true) rs ->
  (length rs < 3)%nat ->
  _make_request_with_retry http_call api method url kw st
  = classify (Z.of_nat (length rs))
      (attempts_loop http_call api method url kw
         (attempts_from (S (length rs)) (2 - length rs)))
      a
      (after st w' (retries (build_request api v url kw) rs
                    ++ [Http (build_request api v url kw)])).
Proof.
  intros Hv Hans Hall Hlen.
  apply answers_app_inv in Hans as (w1 & Hrs & Hlast).
  inversion Hlast as [| w0 a0 w2 rs0 w3 Hcall Hnil]; subst.
  inversion Hnil; subst.
  rewrite make_request_from_0.
  rewrite (attempts_loop_skips api method v url kw rs 0%nat 3%nat st w1)
    by (assumption || reflexivity).
  cbn [Nat.add].
  replace (3 - length rs)%nat with (S (2 - length rs)) by lia.
  unfold attempts_from at 1. cbn [seq map].
  rewrite (attempts_loop_step api method v url kw _ _ _ Hv).
  erewrite bind_requests_call by exact Hcall.
  now rewrite after_after.
Qed.

(** X3. Transient failures do not lose the call: when fewer than
    [MAX_RETRIES] retryable answers (server errors, 429, timeouts,
    connection errors) are followed by a 200 whose body parses,
    [_make_request_with_retry] succeeds with that body, having sent the
    request once per answer and slept after each failure, and nothing
    more. *)
Theorem transient_failures_then_success api method v url kw st rs response
    data w' :
  verb_of method = Some v ->
  answers http_call (build_request api v url kw) (world st)
    (rs ++ [Response response]) w' ->
  Forall (fun a => retryable a = true) rs ->
  Z.of_nat (length rs) < MAX_RETRIES ->
  status_code response = 200 -> json response = Some data ->
  _make_request_with_retry http_call api method url kw st
  = (Ok (true, data, ""),
     after st w' (retries (build_request api v url kw) rs
                  ++ [Http (build_request api v url kw)])).
Proof.
  intros Hv Hans Hall Hlen H200 Hj. unfold MAX_RETRIES in Hlen.
  rewrite (make_request_decided api method v url kw st rs _ w' Hv Hans Hall)
    by lia.
  now apply classify_200.
Qed.

(** X4. A terminal error is never retried: an unparseable 200, a 401, a
    404 or an unexpected exception, at the first attempt or after retryable
    failures, fails the call with its own message, and no request or sleep
    follows it. *)
Theorem terminal_errors_are_not_retried api method v url kw st rs a error w' :
  verb_of method = Some v ->
  answers http_call (build_request api v url kw) (world st) (rs ++ [a]) w' ->
  Forall (fun a => retryable a = true) rs ->
  Z.of_nat (length rs) < MAX_RETRIES ->
  terminal_error a = Some error ->
  _make_request_with_retry http_call api method url kw st
  = (Ok (false, PNone, error),
     after st w' (retries (build_request api v url kw) rs
                  ++ [Http (build_request api v url kw)])).
Proof.
  intros Hv Hans Hall Hlen Hterm. unfold MAX_RETRIES in Hlen.
  rewrite (make_request_decided api method v url kw st rs _ w' Hv Hans Hall)
    by lia.
  now apply classify_terminal.
Qed.

(** X5. When all [MAX_RETRIES] answers are retryable, the call fails with
    the message of the last one ("Rate limited", "HTTP <status>: <first 200
    characters of the text>", "Request timed out" or "Connection error");
    the sleep after each of the earlier answers is the one of that answer,
    and no sleep follows the last attempt. *)
Theorem exhausted_retries_report_the_last_failure api method v url kw st rs a w' :
  verb_of method = Some v ->
  answers http_call (build_request api v url kw) (world st) (rs ++ [a]) w' ->
  Forall (fun a => retryable a = true) (rs ++ [a]) ->
  Z.of_nat (length (rs ++ [a])) = MAX_RETRIES ->
  _make_request_with_retry http_call api method url kw st
  = (Ok (false, PNone, exhausted_error a),
     after st w' (retries (build_request api v url kw) rs
                  ++ [Http (build_request api v url kw)])).
Proof.
  intros Hv Hans Hall Hlen. unfold MAX_RETRIES in Hlen.
  rewrite length_app in Hlen. cbn [length] in Hlen.
  apply Forall_app in Hall as [Hall Ha]. inversion Ha; subst.
  rewrite (make_request_decided api method v url kw st rs _ w' Hv Hans Hall)
    by lia.
  apply classify_exhausted; [assumption |]. unfold MAX_RETRIES. lia.
Qed.

(** Whatever the server does, the loop ends on some answer [a] that comes
    after retryable answers [rs]. *)
Lemma attempts_loop_shape api method v url kw : forall m k st,
  verb_of method = Some v -> (k + m = 3)%nat -> (1 <= m)%nat ->
  exists rs a w' res,
    answers http_call (build_request api v url kw) (world st) (rs ++ [a]) w'
    /\ Forall (fun a => retryable a = true) rs
    /\ (length rs < m)%nat
    /\ settles a (S (length rs) =? m)%nat res
    /\ attempts_loop http_call api method url kw (attempts_from k m) st
       = (Ok res,
          after st w' (retries (build_request api v url kw) rs
                       ++ [Http (build_request api v url kw)])).
Proof.
  induction m as [| m IH]; intros k st Hv Hkm Hm; [lia |].
  unfold attempts_from. cbn [seq map]. fold (attempts_from (S k) m).
  rewrite (attempts_loop_step api method v url kw _ _ st Hv).
  destruct (http_call (build_request api v url kw) (world st)) as [a w1] eqn:Hcall.
  erewrite bind_requests_call by exact Hcall.
  assert (Hone : answers http_call (build_request api v url kw) (world st)
                   ([] ++ [a]) w1).
  { cbn. econstructor; [exact Hcall | constructor]. }
  destruct (answer_kinds a) as [Hr | [[error Hterm] | (response & data & -> & H200 & Hj)]].
  - destruct m as [| m].
    + exists [], a, w1, (false, PNone, exhausted_error a).
      split; [exact Hone |]. split; [constructor |]. split; [cbn; lia |]. split.
      * right. right. now repeat split.
      * apply classify_exhausted; [assumption |]. unfold MAX_RETRIES. lia.
    + rewrite classify_retry by (assumption || (unfold MAX_RETRIES; lia)).
      match goal with
      | |- context [attempts_loop _ _ _ _ _ _ ?s] =>
          destruct (IH (S k) s Hv)
            as (rs & a' & w' & res & Hans & Hall & Hlen & Hset & Hloop); try lia
      end.
      exists (a :: rs), a', w', res.
      split; [cbn; econstructor; [exact Hcall | exact Hans] |].
      split; [now constructor |]. split; [cbn; lia |]. split; [exact Hset |].
      rewrite Hloop, !after_after. reflexivity.
  - exists [], a, w1, (false, PNone, error).
    split; [exact Hone |]. split; [constructor |]. split; [cbn; lia |]. split.
    + right. left. eauto.
    + now apply classify_terminal.
  - exists [], (Response response), w1, (true, data, "").
    split; [exact Hone |]. split; [constructor |]. split; [cbn; lia |]. split.
    + left. eauto 6.
    + now apply classify_200.
Qed.

(** *** Reading the events of a call *)

Lemma http_calls_app ev ev' : http_calls (ev ++ ev') = http_calls ev ++ http_calls ev'.
Proof. apply omap_app. Qed.

Lemma sleeps_app ev ev' : sleeps (ev ++ ev') = sleeps ev ++ sleeps ev'.
Proof. apply omap_app. Qed.

Lemma progress_reports_app ev ev' :
  progress_reports (ev ++ ev') = progress_reports ev ++ progress_reports ev'.
Proof. apply omap_app. Qed.

Lemma http_calls_retries req rs :
  http_calls (retries req rs) = repeat req (length rs).
Proof. induction rs as [| a rs IH]; cbn; [reflexivity | now f_equal]. Qed.

Lemma sleeps_retries req rs : sleeps (retries req rs) = map backoff rs.
Proof. induction rs as [| a rs IH]; cbn; [reflexivity | now f_equal]. Qed.

Lemma progress_reports_retries req rs : progress_reports (retries req rs) = [].
Proof. induction rs as [| a rs IH]; cbn; [reflexivity | exact IH]. Qed.

Lemma backoff_values a :
  backoff a = inject_Z RETRY_DELAY \/ backoff a = inject_Z (RETRY_DELAY * 2).
Proof.
  destruct a as [response | | | description]; cbn; auto.
  destruct (status_code response =? 429); auto.
Qed.

Lemma transport_events_calls req ev :
  transport_events req ev ->
  exists n, (1 <= n <= 3)%nat
            /\ http_calls ev = repeat req n
            /\ length (sleeps ev) = (n - 1)%nat
            /\ progress_reports ev = [].
Proof.
  intros (rs & -> & Hlen & _). unfold MAX_RETRIES in Hlen.
  exists (S (length rs)). split; [lia |].
  rewrite http_calls_app, sleeps_app, progress_reports_app, http_calls_retries,
    sleeps_retries, progress_reports_retries.
  cbn. rewrite app_nil_r, length_map. repeat split.
  - now rewrite <- repeat_cons.
  - lia.
Qed.

(** *** What the transport returns, whatever the server does *)

Lemma unsupported_method api method url kw attempt rest st :
  verb_of method = None ->
  attempts_loop http_call api method url kw (attempt :: rest) st
  = (Ok (false, PNone, "Unsupported HTTP method: " +:+ method), st).
Proof.
  unfold verb_of. cbn [attempts_loop].
  destruct (String.eqb (upper method) "GET"); [discriminate |].
  destruct (String.eqb (upper method) "POST"); [discriminate | reflexivity].
Qed.

Lemma terminal_error_not_empty a error : terminal_error a = Some error -> error <> "".
Proof.
  destruct a as [response | | | description]; cbn; try discriminate.
  - destruct (status_code response =? 200).
    { destruct (json response); [discriminate |]. now intros [= <-]. }
    destruct (status_code response =? 401); [now intros [= <-] |].
    destruct (status_code response =? 404); [now intros [= <-] | discriminate].
  - now intros [= <-].
Qed.

Lemma exhausted_error_not_empty a : exhausted_error a <> "".
Proof.
  destruct a as [response | | | description]; cbn; try discriminate.
  destruct (status_code response =? 429); discriminate.
Qed.

(** The call of a supported method: its result and its events. *)
Lemma make_request_shape api method v url kw st :
  verb_of method = Some v ->
  exists rs a w' res,
    _make_request_with_retry http_call api method url kw st
    = (Ok res, after st w' (retries (build_request api v url kw) rs
                            ++ [Http (build_request api v url kw)]))
    /\ answers http_call (build_request api v url kw) (world st) (rs ++ [a]) w'
    /\ Forall (fun a => retryable a = true) rs
    /\ Z.of_nat (length rs) < MAX_RETRIES
    /\ settles a (S (length rs) =? 3)%nat res.
Proof.
  intros Hv.
  destruct (attempts_loop_shape api method v url kw 3%nat 0%nat st Hv)
    as (rs & a & w' & res & Hans & Hall & Hlen & Hset & Hloop); try lia.
  exists rs, a, w', res. rewrite make_request_from_0.
  unfold MAX_RETRIES. repeat split; try assumption. lia.
Qed.

Lemma settles_flags a last res :
  settles a last res ->
  match res with
  | (true, _, error) => error = ""
  | (false, data, error) => data = PNone /\ error <> ""
  end.
Proof.
  intros [(response & data & _ & _ & _ & ->)
         | [(error & Hterm & ->) | (_ & _ & ->)]]; cbn.
  - reflexivity.
  - split; [reflexivity |]. now apply terminal_error_not_empty in Hterm.
  - split; [reflexivity | apply exhausted_error_not_empty].
Qed.

(** [_make_request_with_retry] returns, and its flag and its error agree. *)
Lemma make_request_flags api method url kw st :
  exists success data error st',
    _make_request_with_retry http_call api method url kw st
    = (Ok (success, data, error), st')
    /\ (if success then error = "" else data = PNone /\ error <> "").
Proof.
  destruct (verb_of method) as [v |] eqn:Hv.
  - destruct (make_request_shape api method v url kw st Hv)
      as (rs & a & w' & [[success data] error] & Hreq & _ & _ & _ & Hset).
    exists success, data, error. eexists. split; [exact Hreq |].
    apply settles_flags in Hset. now destruct success.
  - rewrite make_request_attempts, (unsupported_method _ _ _ _ _ _ _ Hv).
    exists false, PNone. do 2 eexists. split; [reflexivity |].
    split; [reflexivity | discriminate].
Qed.

(** X1. [_make_request_with_retry] never raises, whatever the method and
    whatever the server does: it returns a triple in which success comes
    with an empty error, and failure comes with [None] for the data and a
    non-empty error message. *)
Theorem transport_always_returns_a_verdict api method url kw st :
  match fst (_make_request_with_retry http_call api method url kw st) with
  | Ok (true, _, error) => error = ""
  | Ok (false, data, error) => data = PNone /\ error <> ""
  | Raise _ => False
  end.
Proof.
  destruct (make_request_flags api method url kw st)
    as (success & data & error & st' & -> & H).
  cbn. now destruct success.
Qed.

(** X2. One call of [_make_request_with_retry] with a supported method
    does this to its environment and nothing else: it sends the request,
    sleeps, sends the same request again, sleeps, ..., and ends on a
    request.  There are between one and [MAX_RETRIES] requests, a sleep
    after every request but the last, and each sleep lasts [RETRY_DELAY]
    or [RETRY_DELAY * 2]. *)
Theorem transport_attempts_are_bounded api method v url kw st :
  verb_of method = Some v ->
  exists delays,
    trace (snd (_make_request_with_retry http_call api method url kw st))
    = trace st
      ++ flat_map (fun d => [Http (build_request api v url kw); Sleep d]) delays
      ++ [Http (build_request api v url kw)]
    /\ Z.of_nat (length delays) < MAX_RETRIES
    /\ Forall (fun d => d = inject_Z RETRY_DELAY \/ d = inject_Z (RETRY_DELAY * 2))
         delays.
Proof.
  intros Hv.
  destruct (make_request_shape api method v url kw st Hv)
    as (rs & a & w' & res & -> & _ & _ & Hlen & _).
  cbn [snd after trace]. exists (map backoff rs).
  split; [| split].
  - do 2 f_equal. unfold retries. clear.
    induction rs as [| a0 rs IH]; [reflexivity |].
    cbn [flat_map map app]. now rewrite IH.
  - now rewrite length_map.
  - apply Forall_map, Forall_forall. intros a0 _. apply backoff_values.
Qed.

(** X6. The [return] that follows the loop (line 77) is dead code: no
    call of [_make_request_with_retry] returns "Failed after 3 attempts". *)
Theorem failed_after_is_never_returned api method url kw st :
  match fst (_make_request_with_retry http_call api method url kw st) with
  | Ok (_, _, error) =>
      error <> "Failed after " +:+ str_int MAX_RETRIES +:+ " attempts"
  | Raise _ => True
  end.
Proof.
  destruct (verb_of method) as [v |] eqn:Hv.
  - destruct (make_request_shape api method v url kw st Hv)
      as (rs & a & w' & [[success data] error] & -> & _ & _ & _ & Hset).
    cbn [fst].
    destruct Hset as [(response & body & _ & _ & _ & [= _ _ ->])
                     | [(msg & Hterm & [= _ _ ->]) | (_ & _ & [= _ _ ->])]].
    + discriminate.
    + destruct a as [response | | | description]; cbn in Hterm; try discriminate.
      * destruct (status_code response =? 200).
        { destruct (json response); [discriminate |].
          injection Hterm as <-. discriminate. }
        destruct (status_code response =? 401);
          [injection Hterm as <-; discriminate |].
        destruct (status_code response =? 404);
          [injection Hterm as <-; discriminate | discriminate].
      * injection Hterm as <-. discriminate.
    + destruct a as [response | | | description]; cbn; try discriminate.
      destruct (status_code response =? 429); discriminate.
  - rewrite make_request_attempts, (unsupported_method _ _ _ _ _ _ _ Hv).
    cbn. discriminate.
Qed.

Lemma classify_ext attempt (k1 k2 : M World (bool * pyval * string)) a st :
  (forall st0, k1 st0 = k2 st0) ->
  classify attempt k1 a st = classify attempt k2 a st.
Proof.
  intros Hk. unfold classify, bind, sleep, emit.
  destruct a as [response | | | description]; try reflexivity;
    repeat match goal with
           | |- context [if ?c then _ else _] => destruct c
           end;
    try reflexivity; apply Hk.
Qed.

Lemma attempts_loop_same_verb api method method' v url kw attempts : forall st,
  verb_of method = Some v -> verb_of method' = Some v ->
  attempts_loop http_call api method url kw attempts st
  = attempts_loop http_call api method' url kw attempts st.
Proof.
  induction attempts as [| attempt rest IH]; intros st Hv Hv'; [reflexivity |].
  rewrite (attempts_loop_step api method v url kw _ _ _ Hv),
    (attempts_loop_step api method' v url kw _ _ _ Hv').
  unfold bind, requests_call.
  destruct (http_call _ (world st)) as [a w].
  apply classify_ext. intros st0. now apply IH.
Qed.

(** X7. The method name is matched without regard to case: a name whose
    upper case is GET (or POST) behaves as "GET" (or "POST") does.  Any
    other name fails at once with "Unsupported HTTP method: <name as
    given>", and nothing is sent. *)
Theorem method_name_selects_the_verb api method url kw st :
  match verb_of method with
  | Some GET =>
      _make_request_with_retry http_call api method url kw st
      = _make_request_with_retry http_call api "GET" url kw st
  | Some POST =>
      _make_request_with_retry http_call api method url kw st
      = _make_request_with_retry http_call api "POST" url kw st
  | None =>
      _make_request_with_retry http_call api method url kw st
      = (Ok (false, PNone, "Unsupported HTTP method: " +:+ method), st)
  end.
Proof.
  destruct (verb_of method) as [[|] |] eqn:Hv.
  - now apply attempts_loop_same_verb with (v := GET).
  - now apply attempts_loop_same_verb with (v := POST).
  - rewrite make_request_attempts. now apply unsupported_method.
Qed.

(** *** The lookup *)

Lemma verb_of_GET : verb_of "GET" = Some GET.
Proof. reflexivity. Qed.

Lemma verb_of_POST : verb_of "POST" = Some POST.
Proof. reflexivity. Qed.

(** A successful call after retryable answers, as a rewriting step. *)
Lemma make_request_success api method v url kw st rs response data w' :
  verb_of method = Some v ->
  answers http_call (build_request api v url kw) (world st)
    (rs ++ [Response response]) w' ->
  Forall (fun a => retryable a = true) rs ->
  Z.of_nat (length rs) < MAX_RETRIES ->
  status_code response = 200 -> json response = Some data ->
  _make_request_with_retry http_call api method url kw st
  = (Ok (true, data, ""),
     after st w' (retries (build_request api v url kw) rs
                  ++ [Http (build_request api v url kw)])).
Proof.
  intros Hv Hans Hall Hlen H200 Hj. unfold MAX_RETRIES in Hlen.
  rewrite (make_request_decided api method v url kw st rs _ w' Hv Hans Hall)
    by lia.
  now apply classify_200.
Qed.

(** What [lookup_lead] returns and does, whatever the server does. *)
Lemma lookup_lead_shape api phone st :
  exists res w' ev,
    lookup_lead http_call py_repr api phone st = (res, after st w' ev)
    /\ transport_events (lookup_request api phone) ev
    /\ match res with
       | Ok (true, lead_id, error) => truthy lead_id = true /\ error = ""
       | Ok (false, lead_id, error) => lead_id = PNone
       | Raise e => e = AttributeError "get"
       end.
Proof.
  destruct (make_request_shape api "GET" GET (lookup_endpoint api)
              (Params [("phone", phone)]) st verb_of_GET)
    as (rs & a & w' & [[success data] error] & Hreq & _ & Hall & Hlen & _).
  rewrite (lookup_lead_unfold http_call py_repr), (bind_Ok _ _ _ _ _ Hreq).
  assert (Hev : transport_events (lookup_request api phone)
                  (retries (lookup_request api phone) rs
                   ++ [Http (lookup_request api phone)]))
    by (exists rs; auto).
  destruct success; cbn [andb].
  - destruct (truthy data) eqn:Hd.
    + destruct data as [| | | | | | items];
        try (do 3 eexists; split; [reflexivity | split; [exact Hev | reflexivity]]).
      unfold bind, method_get, ret.
      destruct (truthy (default (PStr "") (items_get items "id"))) eqn:Hid;
        do 3 eexists; (split; [reflexivity | split; [exact Hev |]]); cbn; auto.
    + do 3 eexists. split; [reflexivity | split; [exact Hev | reflexivity]].
  - do 3 eexists. split; [reflexivity | split; [exact Hev | reflexivity]].
Qed.

(** X8. Whatever the server does, [lookup_lead] ends in one of three ways:
    it returns success with a lead id that passes the truth test and an
    empty error; it returns failure with [None] for the lead id; or it
    raises AttributeError from [data.get].  A success never carries an
    empty lead id. *)
Theorem lookup_results_have_three_shapes api phone st :
  match fst (lookup_lead http_call py_repr api phone st) with
  | Ok (true, lead_id, error) => truthy lead_id = true /\ error = ""
  | Ok (false, lead_id, error) => lead_id = PNone
  | Raise e => e = AttributeError "get"
  end.
Proof.
  destruct (lookup_lead_shape api phone st) as (res & w' & ev & -> & _ & H).
  exact H.
Qed.

(** X9. When the lookup is answered 200 with a body that parses to a
    truthy value other than an object (a non-empty list or string, a
    non-zero number, true), [lookup_lead] raises AttributeError: the
    failure is not turned into an error message. *)
Theorem lookup_raises_on_truthy_non_object api phone st rs response data w' :
  answers http_call (lookup_request api phone) (world st)
    (rs ++ [Response response]) w' ->
  Forall (fun a => retryable a = true) rs ->
  Z.of_nat (length rs) < MAX_RETRIES ->
  status_code response = 200 -> json response = Some data ->
  truthy data = true -> (forall items, data <> PDict items) ->
  lookup_lead http_call py_repr api phone st
  = (Raise (AttributeError "get"),
     after st w' (retries (lookup_request api phone) rs
                  ++ [Http (lookup_request api phone)])).
Proof.
  intros Hans Hall Hlen H200 Hj Htruthy Hnot.
  rewrite (lookup_lead_unfold http_call py_repr).
  rewrite (bind_Ok _ _ _ _ _
             (make_request_success api "GET" GET _ _ st rs response data w'
                verb_of_GET Hans Hall Hlen H200 Hj)).
  cbn [andb]. rewrite Htruthy.
  destruct data as [| | | | | | items]; try reflexivity.
  now destruct (Hnot items).
Qed.

Lemma length_append s1 s2 :
  String.length (s1 +:+ s2) = (String.length s1 + String.length s2)%nat.
Proof.
  induction s1 as [| c s1 IH]; [reflexivity |].
  change (S (String.length (s1 +:+ s2))
          = S (String.length s1 + String.length s2)).
  now f_equal.
Qed.

Lemma length_slice_to n s : (String.length (slice_to n s) <= n)%nat.
Proof.
  revert s. induction n as [| n IH]; intros [| c s]; cbn; try lia.
  specialize (IH s). lia.
Qed.

Lemma slice_to_all n s : (String.length s <= n)%nat -> slice_to n s = s.
Proof.
  revert s. induction n as [| n IH]; intros [| c s]; cbn; try reflexivity;
    try lia.
  intros H. f_equal. apply IH. lia.
Qed.

(** X10. When the lookup is answered 200 with a non-empty object whose
    ['id'] is absent or fails the truth test, [lookup_lead] fails with
    "No lead ID in response. Response: " followed by the first 100
    characters of [str(data)], at most 134 characters in all; the whole of
    [str(data)] is quoted when it has no more than 100 characters. *)
Theorem missing_id_is_reported_with_a_bounded_quote api phone st rs response
    items w' :
  answers http_call (lookup_request api phone) (world st)
    (rs ++ [Response response]) w' ->
  Forall (fun a => retryable a = true) rs ->
  Z.of_nat (length rs) < MAX_RETRIES ->
  status_code response = 200 -> json response = Some (PDict items) ->
  items <> [] ->
  truthy (default (PStr "") (items_get items "id")) = false ->
  exists error,
    lookup_lead http_call py_repr api phone st
    = (Ok (false, PNone, error),
       after st w' (retries (lookup_request api phone) rs
                    ++ [Http (lookup_request api phone)]))
    /\ error = diagnostic_prefix +:+ slice_to 100 (py_repr (PDict items))
    /\ (String.length error <= 134)%nat
    /\ ((String.length (py_repr (PDict items)) <= 100)%nat ->
        error = diagnostic_prefix +:+ py_repr (PDict items)).
Proof.
  intros Hans Hall Hlen H200 Hj Hitems Hid.
  eexists. split; [| split; [reflexivity |]].
  - rewrite (lookup_lead_unfold http_call py_repr).
    rewrite (bind_Ok _ _ _ _ _
               (make_request_success api "GET" GET _ _ st rs response _ w'
                  verb_of_GET Hans Hall Hlen H200 Hj)).
    cbn [andb]. destruct items as [| item items]; [contradiction |].
    cbn [truthy]. unfold bind, method_get, ret. rewrite Hid. reflexivity.
  - split.
    + rewrite length_append.
      pose proof (length_slice_to 100 (py_repr (PDict items))).
      change (String.length diagnostic_prefix) with 34%nat. lia.
    + intros Hshort. now rewrite slice_to_all.
Qed.

(** *** The switch *)

(** What [switch_profile] returns and does, whatever the server does. *)
Lemma switch_profile_shape api lead_id target_profile st :
  exists success error w' ev,
    switch_profile http_call py_repr api lead_id target_profile st
    = (Ok (success, error), after st w' ev)
    /\ transport_events (switch_request py_repr api lead_id target_profile) ev
    /\ (if success then error = "" else error <> "").
Proof.
  destruct (make_request_shape api "POST" POST
              (req_url (switch_request py_repr api lead_id target_profile))
              (Json (switch_payload target_profile)) st verb_of_POST)
    as (rs & a & w' & [[success data] error] & Hreq & _ & Hall & Hlen & Hset).
  rewrite make_request_attempts in Hreq.
  rewrite (switch_profile_unfold http_call py_repr), (bind_Ok _ _ _ _ _ Hreq).
  apply settles_flags in Hset.
  assert (Hev : transport_events (switch_request py_repr api lead_id target_profile)
                  (retries (switch_request py_repr api lead_id target_profile) rs
                   ++ [Http (switch_request py_repr api lead_id target_profile)]))
    by (exists rs; auto).
  destruct success.
  - exists true, "". do 2 eexists. split; [reflexivity | split; [exact Hev | reflexivity]].
  - exists false, error. do 2 eexists.
    split; [reflexivity | split; [exact Hev | apply Hset]].
Qed.

(** X11. [switch_profile] succeeds exactly when the answer that ends its
    call is a 200 for which [response.json()] returns: what it returns is
    not looked at (null, false or a list count as success).  Every other
    end of the call, a 200 whose body cannot be decoded among them, is a
    failure with a message.  This holds whatever the server does; the
    answers before the last are the retried ones. *)
Theorem switch_succeeds_when_the_body_parses api lead_id target_profile st :
  exists success error rs a w',
    switch_profile http_call py_repr api lead_id target_profile st
    = (Ok (success, error),
       after st w'
         (retries (switch_request py_repr api lead_id target_profile) rs
          ++ [Http (switch_request py_repr api lead_id target_profile)]))
    /\ answers http_call (switch_request py_repr api lead_id target_profile)
         (world st) (rs ++ [a]) w'
    /\ Forall (fun a0 => retryable a0 = true) rs
    /\ Z.of_nat (length rs) < MAX_RETRIES
    /\ (success = true <->
        exists response data,
          a = Response response /\ status_code response = 200
          /\ json response = Some data)
    /\ (if success then error = "" else error <> "").
Proof.
  destruct (make_request_shape api "POST" POST
              (req_url (switch_request py_repr api lead_id target_profile))
              (Json (switch_payload target_profile)) st verb_of_POST)
    as (rs & a & w' & [[success data] error] & Hreq & Hans & Hall & Hlen & Hset).
  rewrite make_request_attempts in Hreq.
  pose proof (settles_flags _ _ _ Hset) as Hflags.
  assert (Hrun : switch_profile http_call py_repr api lead_id target_profile st
                 = (Ok (success, if success then "" else error),
                    after st w'
                      (retries (switch_request py_repr api lead_id target_profile) rs
                       ++ [Http (switch_request py_repr api lead_id
                                   target_profile)]))).
  { rewrite (switch_profile_unfold http_call py_repr), (bind_Ok _ _ _ _ _ Hreq).
    now destruct success. }
  exists success, (if success then "" else error), rs, a, w'.
  split; [exact Hrun |]. split; [exact Hans |]. split; [exact Hall |].
  split; [exact Hlen |]. split.
  - split.
    + intros ->.
      destruct Hset as [(response & data0 & -> & H200 & Hj & _)
                       | [(e & _ & [=]) | (_ & _ & [=])]].
      eauto.
    + intros (response & data0 & -> & H200 & Hj).
      destruct Hset as [(response' & data' & _ & _ & _ & [= -> _ _])
                       | [(e & Ht & _) | (Hr & _)]].
      * reflexivity.
      * cbn in Ht. rewrite H200, Hj in Ht. discriminate.
      * cbn in Hr. rewrite H200 in Hr. discriminate.
  - destruct success; [reflexivity | apply Hflags].
Qed.

(** X12. The URL of the switch request is the base URL, "/leads/", the
    text of the lead id as [str] gives it, and "/switchCustomerProfile":
    the lead id is inserted as it is, without any quoting. *)
Theorem switch_url_embeds_the_lead_id api_key lead_id target_profile :
  req_url (switch_request py_repr (__init__ api_key) lead_id target_profile)
  = API_BASE_URL +:+ "/leads/" +:+ py_str py_repr lead_id
    +:+ "/switchCustomerProfile".
Proof.
  unfold switch_request, build_request. cbn [req_url].
  generalize (py_str py_repr lead_id). intros text.
  vm_compute. reflexivity.
Qed.

(** *** One lead *)

(** What [process_lead] returns and does, whatever the server does: the
    events of the lookup, then either nothing or the events of the switch
    for the lead id that the lookup gave. *)
Lemma process_lead_shape api ld st :
  exists res w' ev1 ev2,
    process_lead http_call py_repr api ld st = (res, after st w' (ev1 ++ ev2))
    /\ transport_events (lookup_request api (phone ld)) ev1
    /\ ((ev2 = []
         /\ (res = Raise (AttributeError "get")
             \/ exists error, res = Ok (false, PStr "", error)))
        \/ (exists lead_id,
              truthy lead_id = true
              /\ transport_events
                   (switch_request py_repr api lead_id (target_profile ld)) ev2
              /\ (res = Ok (true, lead_id, "")
                  \/ exists error, error <> "" /\ res = Ok (false, lead_id, error)))).
Proof.
  destruct (lookup_lead_shape api (phone ld) st)
    as ([[[success lead_id] error] | e] & w1 & ev1 & Hl & Hev1 & Hres).
  - destruct success.
    + destruct Hres as [Htruthy ->].
      destruct (switch_profile_shape api lead_id (target_profile ld) (after st w1 ev1))
        as (ok & error' & w2 & ev2 & Hs & Hev2 & Hflag).
      exists (Ok (ok, lead_id, if ok then "" else error')), w2, ev1, ev2.
      split; [| split; [exact Hev1 |]].
      * rewrite <- (after_after st w1 ev1 w2 ev2).
        exact (process_lead_lookup_ok http_call py_repr api ld st lead_id ""
                 _ ok error' _ Hl Hs).
      * right. exists lead_id. split; [exact Htruthy |]. split; [exact Hev2 |].
        destruct ok; [now left | right; eauto].
    + exists (Ok (false, PStr "", error)), w1, ev1, []. rewrite app_nil_r.
      split; [| split; [exact Hev1 |]].
      * exact (process_lead_lookup_failed http_call py_repr api ld st _ _ _ Hl).
      * left. split; [reflexivity |]. right. eauto.
  - exists (Raise e), w1, ev1, []. rewrite app_nil_r.
    split; [| split; [exact Hev1 |]].
    + unfold process_lead. now rewrite (bind_Raise _ _ _ _ _ Hl).
    + left. split; [reflexivity |]. left. now rewrite Hres.
Qed.


(** X14. [process_lead] sends its lookup requests first, between one and
    [MAX_RETRIES] of them, and then at most [MAX_RETRIES] switch requests;
    it sends a switch request only for a lead id that passes the truth test
    and that it then returns; and it reports no progress itself. *)
Theorem lookup_precedes_switch api ld st :
  exists ev n m lead_id,
    trace (snd (process_lead http_call py_repr api ld st)) = trace st ++ ev
    /\ http_calls ev
       = repeat (lookup_request api (phone ld)) n
         ++ repeat (switch_request py_repr api lead_id (target_profile ld)) m
    /\ 1 <= Z.of_nat n <= MAX_RETRIES
    /\ Z.of_nat m <= MAX_RETRIES
    /\ ((0 < m)%nat ->
        truthy lead_id = true
        /\ exists success error,
            fst (process_lead http_call py_repr api ld st)
            = Ok (success, lead_id, error))
    /\ progress_reports ev = [].
Proof.
  destruct (process_lead_shape api ld st)
    as (res & w' & ev1 & ev2 & -> & Hev1 & H). cbn [fst snd after trace].
  apply transport_events_calls in Hev1 as (n & Hn & Hcalls1 & _ & Hprog1).
  unfold MAX_RETRIES.
  destruct H as [(-> & _) | (lead_id & Htruthy & Hev2 & Hres)].
  - exists (ev1 ++ []), n, 0%nat, PNone. rewrite http_calls_app, progress_reports_app.
    cbn. rewrite !app_nil_r. repeat split; try assumption; try lia.
  - apply transport_events_calls in Hev2 as (m & Hm & Hcalls2 & _ & Hprog2).
    exists (ev1 ++ ev2), n, m, lead_id.
    rewrite http_calls_app, progress_reports_app, Hcalls1, Hcalls2, Hprog1, Hprog2.
    repeat split; try lia; try assumption.
    destruct Hres as [-> | (error & _ & ->)]; eauto.
Qed.

(** *** What validation lets through *)

Lemma join_filter_all pred s : all_chars pred (join_filter pred s) = true.
Proof.
  induction s as [| c s IH]; [reflexivity |]. cbn.
  destruct (pred c) eqn:E; [cbn; now rewrite E | exact IH].
Qed.

Lemma lstrip_clean s :
  match s with String c _ => isspace c = false | EmptyString => True end ->
  lstrip s = s.
Proof. destruct s as [| c s]; [reflexivity |]. cbn. now intros ->. Qed.

Lemma lstrip_starts_clean s :
  match lstrip s with String c _ => isspace c = false | EmptyString => True end.
Proof.
  induction s as [| c s IH]; [exact I |]. cbn.
  destruct (isspace c) eqn:E; [exact IH | exact E].
Qed.

Lemma rstrip_starts_clean s :
  match s with String c _ => isspace c = false | EmptyString => True end ->
  match rstrip s with String c _ => isspace c = false | EmptyString => True end.
Proof.
  destruct s as [| c s]; [easy |]. cbn. intros E.
  destruct (rstrip s); [now rewrite E | exact E].
Qed.

Lemma rstrip_idem s : rstrip (rstrip s) = rstrip s.
Proof.
  induction s as [| c s IH]; [reflexivity |]. cbn.
  destruct (rstrip s) as [| c' kept] eqn:E.
  - destruct (isspace c) eqn:Ec; [reflexivity |]. cbn. now rewrite Ec.
  - change (rstrip (String c (String c' kept)) = String c (String c' kept)).
    cbn [rstrip] in *. now rewrite IH.
Qed.

Lemma strip_idem s : strip (strip s) = strip s.
Proof.
  unfold strip.
  rewrite (lstrip_clean (rstrip (lstrip s)))
    by apply rstrip_starts_clean, lstrip_starts_clean.
  apply rstrip_idem.
Qed.

(** X15. What validation lets through is clean: for a row that is not
    rejected, the phone handed to the lookup is non-empty and made of digit
    characters only, and the target profile is non-empty, is one of the two
    profile cells trimmed, and has no white space left at either end. *)
Theorem normalized_fields_are_clean r st phone target_profile st' :
  normalize py_repr r st = (Ok (Normalized phone target_profile), st') ->
  phone = join_filter isdigit (py_str py_repr (row_get r "Mobile Phone"))
  /\ phone <> ""
  /\ all_chars isdigit phone = true
  /\ target_profile <> ""
  /\ strip target_profile = target_profile
  /\ exists cell,
      (row_get r "Customer Profile" = PStr cell
       \/ row_get r "Customer Profile - MOVE" = PStr cell)
      /\ target_profile = strip cell.
Proof.
  unfold normalize, bind, method_strip, ret.
  destruct (is_empty (join_filter _ _)) eqn:Ephone; [discriminate |].
  destruct (row_get r "Customer Profile") as [| | | | s | |] eqn:Ep;
    try discriminate.
  destruct (is_empty (strip s)) eqn:Es.
  - destruct (row_get r "Customer Profile - MOVE") as [| | | | s' | |] eqn:Ef;
      try discriminate.
    destruct (is_empty (strip s')) eqn:Es'; [discriminate |].
    intros [= <- <- _]. split; [reflexivity |].
    split; [intros E; rewrite E in Ephone; discriminate |].
    split; [apply join_filter_all |].
    split; [intros E; rewrite E in Es'; discriminate |].
    split; [apply strip_idem | eauto].
  - rewrite Es. intros [= <- <- _]. split; [reflexivity |].
    split; [intros E; rewrite E in Ephone; discriminate |].
    split; [apply join_filter_all |].
    split; [intros E; rewrite E in Es; discriminate |].
    split; [apply strip_idem | eauto].
Qed.

Lemma row_get_insert_ne r key key' v :
  key <> key' -> row_get (<[key := v]> r) key' = row_get r key'.
Proof. intros H. unfold row_get. now rewrite lookup_insert_ne. Qed.

Lemma row_get_insert_eq r key v : row_get (<[key := v]> r) key = v.
Proof. unfold row_get. now rewrite lookup_insert_eq. Qed.

Lemma normalize_without_fallback r st v :
  is_empty (join_filter isdigit (py_str py_repr (row_get r "Mobile Phone"))) = true
  \/ (forall s, row_get r "Customer Profile" = PStr s -> strip s <> "") ->
  normalize py_repr (<["Customer Profile - MOVE" := v]> r) st
  = normalize py_repr r st.
Proof.
  intros H. unfold normalize, bind, method_strip, ret.
  rewrite (row_get_insert_ne r "Customer Profile - MOVE" "Mobile Phone"),
    (row_get_insert_ne r "Customer Profile - MOVE" "Customer Profile")
    by discriminate.
  destruct (is_empty (join_filter _ _)) eqn:Ephone; [reflexivity |].
  destruct H as [H | H]; [discriminate |].
  destruct (row_get r "Customer Profile") as [| | | | s | |]; try reflexivity.
  now rewrite (is_empty_false (strip s)) by now apply H.
Qed.

(** X16. The fallback cell is read only when it is needed: unless the
    phone is valid and [Customer Profile] is text that is blank once
    trimmed, the loop body does the same whatever [Customer Profile - MOVE]
    holds, be it NaN. *)
Theorem fallback_is_read_only_when_needed api total_rows idx r vars st v :
  is_empty (join_filter isdigit (py_str py_repr (row_get r "Mobile Phone"))) = true
  \/ (forall s, row_get r "Customer Profile" = PStr s -> strip s <> "") ->
  loop_body http_call py_repr api total_rows idx
    (<["Customer Profile - MOVE" := v]> r) vars st
  = loop_body http_call py_repr api total_rows idx r vars st.
Proof.
  intros H. destruct vars as [[results successful_count] failed_count].
  unfold loop_body.
  rewrite (row_get_insert_ne r "Customer Profile - MOVE" "Mobile Phone"),
    (row_get_insert_ne r "Customer Profile - MOVE" "Customer Profile"),
    (row_get_insert_ne r "Customer Profile - MOVE" "First Name"),
    (row_get_insert_ne r "Customer Profile - MOVE" "Last Name") by discriminate.
  unfold bind at 1 6. now rewrite normalize_without_fallback.
Qed.

Lemma normalize_with_blank_primary r st s :
  is_empty (join_filter isdigit (py_str py_repr (row_get r "Mobile Phone"))) = false ->
  row_get r "Customer Profile" = PStr s -> strip s = "" ->
  normalize py_repr
    (<["Customer Profile" := row_get r "Customer Profile - MOVE"]> r) st
  = normalize py_repr r st
  /\ fst (normalize py_repr r st) <> Ok InvalidPhone.
Proof.
  intros Hphone Hp Hs. unfold normalize, bind, method_strip, ret.
  rewrite (row_get_insert_ne r "Customer Profile" "Mobile Phone"),
    (row_get_insert_ne r "Customer Profile" "Customer Profile - MOVE")
    by discriminate.
  rewrite row_get_insert_eq, Hphone, Hp, Hs. cbn [is_empty String.eqb].
  destruct (row_get r "Customer Profile - MOVE") as [| | | | s' | |];
    try (split; [reflexivity | discriminate]).
  destruct (is_empty (strip s')) eqn:E; rewrite ?E;
    (split; [reflexivity | discriminate]).
Qed.

(** X17. A row with a valid phone whose [Customer Profile] is blank text
    is treated exactly as the row that has the content of
    [Customer Profile - MOVE] in [Customer Profile]: same requests, same
    outcome, same exception if that content is not text. *)
Theorem blank_primary_stands_for_the_fallback api total_rows idx r vars st s :
  is_empty (join_filter isdigit (py_str py_repr (row_get r "Mobile Phone"))) = false ->
  row_get r "Customer Profile" = PStr s -> strip s = "" ->
  loop_body http_call py_repr api total_rows idx r vars st
  = loop_body http_call py_repr api total_rows idx
      (<["Customer Profile" := row_get r "Customer Profile - MOVE"]> r) vars st.
Proof.
  intros Hphone Hp Hs. destruct vars as [[results successful_count] failed_count].
  destruct (normalize_with_blank_primary r st s Hphone Hp Hs) as [Heq Hvalid].
  unfold loop_body.
  rewrite (row_get_insert_ne r "Customer Profile" "Mobile Phone"),
    (row_get_insert_ne r "Customer Profile" "First Name"),
    (row_get_insert_ne r "Customer Profile" "Last Name") by discriminate.
  unfold bind at 1 6. rewrite Heq.
  destruct (normalize py_repr r st) as [[[| phone | phone profile] | e] st1];
    try reflexivity.
  now destruct Hvalid.
Qed.

(** *** The events of a batch *)

Lemma pause_is_silent total_rows idx :
  http_calls (pause total_rows idx) = []
  /\ progress_reports (pause total_rows idx) = [].
Proof. unfold pause. now destruct (idx <? total_rows - 1). Qed.

(** What one pass through the loop body adds to the trace, however it
    ends. *)
Lemma loop_body_events api total_rows idx r vars st :
  exists res st' ev,
    loop_body http_call py_repr api total_rows idx r vars st = (res, st')
    /\ trace st' = trace st ++ ev
    /\ (length (http_calls ev) <= 6)%nat
    /\ (progress_reports ev = []
        \/ progress_reports ev = [(idx + 1, total_rows)]).
Proof.
  destruct vars as [[results successful_count] failed_count].
  destruct (normalize_pure (World := World) py_repr r) as [checked Hn]. specialize (Hn st).
  destruct checked as [[| phone | phone target_profile] | e].
  - do 2 eexists. exists [].
    split; [exact (loop_body_InvalidPhone http_call py_repr api total_rows idx r
                     results successful_count failed_count st Hn) |].
    rewrite app_nil_r. cbn. repeat split; auto; lia.
  - do 2 eexists. exists [].
    split; [exact (loop_body_MissingProfile http_call py_repr api total_rows idx
                     r results successful_count failed_count st phone Hn) |].
    rewrite app_nil_r. cbn. repeat split; auto; lia.
  - destruct (process_lead_shape api
                {| phone := phone; target_profile := target_profile;
                   first_name := row_get r "First Name";
                   last_name := row_get r "Last Name" |}
                (announced py_repr total_rows idx r st))
      as (res & w' & ev1 & ev2 & Hlead & Hev1 & Hev2).
    apply transport_events_calls in Hev1 as (n & Hn1 & Hcalls1 & _ & Hprog1).
    assert (Hcalls2 : (length (http_calls ev2) <= 3)%nat /\ progress_reports ev2 = []).
    { destruct Hev2 as [(-> & _) | (lead_id & _ & Hev2 & _)]; [cbn; split; [lia | reflexivity] |].
      apply transport_events_calls in Hev2 as (m & Hm & -> & _ & ->).
      rewrite repeat_length. split; [lia | reflexivity]. }
    destruct Hcalls2 as [Hcalls2 Hprog2].
    destruct (pause_is_silent total_rows idx) as [Hpc Hpp].
    destruct res as [[[success lead_id] error_message] | e].
    + do 2 eexists.
      exists ([StatusText (processing_text py_repr total_rows idx r)] ++ ev1 ++ ev2
              ++ [Progress (idx + 1) total_rows] ++ pause total_rows idx).
      split; [exact (loop_body_Normalized http_call py_repr api total_rows idx r
                       results successful_count failed_count st _ _ _ _ _ _
                       Hn Hlead) |].
      split; [unfold reported, after, announced; cbn [trace];
              now rewrite <- !app_assoc |].
      rewrite !http_calls_app, !progress_reports_app, Hcalls1, Hprog1, Hprog2,
        Hpc, Hpp.
      cbn. rewrite !length_app, repeat_length. split; [cbn; lia | now right].
    + do 2 eexists.
      exists ([StatusText (processing_text py_repr total_rows idx r)] ++ ev1 ++ ev2).
      split; [exact (loop_body_Raise http_call py_repr api total_rows idx r
                       results successful_count failed_count st _ _ _ _
                       Hn Hlead) |].
      split; [unfold after, announced; cbn [trace]; now rewrite <- !app_assoc |].
      rewrite !http_calls_app, !progress_reports_app, Hcalls1, Hprog1, Hprog2.
      cbn. rewrite !length_app, repeat_length. split; [lia | now left].
  - do 2 eexists. exists []. split.
    + unfold loop_body. now rewrite (bind_Raise _ _ _ _ _ Hn).
    + rewrite app_nil_r. cbn. repeat split; auto; lia.
Qed.

Lemma iterrows_events api total_rows rows : forall idx vars st,
  exists res st' ev,
    iterrows http_call py_repr api total_rows idx rows vars st = (res, st')
    /\ trace st' = trace st ++ ev
    /\ (length (http_calls ev) <= 6 * length rows)%nat
    /\ Forall (fun p => snd p = total_rows
                        /\ idx < fst p <= idx + Z.of_nat (length rows))
         (progress_reports ev)
    /\ StronglySorted (fun p q => fst p < fst q) (progress_reports ev).
Proof.
  induction rows as [| r rows IH]; intros idx vars st.
  - do 2 eexists. exists []. split; [reflexivity |].
    rewrite app_nil_r. cbn. repeat split; auto; constructor.
  - destruct (loop_body_events api total_rows idx r vars st)
      as ([vars1 | e] & st1 & ev1 & Hbody & Htrace1 & Hcalls1 & Hprog1).
    + destruct (IH (idx + 1) vars1 st1)
        as (res & st' & ev2 & Hrest & Htrace2 & Hcalls2 & Hbound2 & Hsorted2).
      exists res, st', (ev1 ++ ev2). cbn [iterrows].
      split; [now rewrite (bind_Ok _ _ _ _ _ Hbody) |].
      split; [now rewrite Htrace2, Htrace1, app_assoc |].
      rewrite http_calls_app, progress_reports_app, length_app.
      split; [cbn [length]; lia |].
      assert (Hbound : Forall (fun p => snd p = total_rows
                                        /\ idx < fst p
                                           <= idx + Z.of_nat (length (r :: rows)))
                         (progress_reports ev2)).
      { eapply Forall_impl; [exact Hbound2 |]. cbn [length].
        intros p [Hd Hn]. split; [exact Hd | lia]. }
      destruct Hprog1 as [-> | ->]; cbn [app].
      * split; assumption.
      * split.
        -- constructor; [cbn [length fst snd]; split; [reflexivity | lia] | exact Hbound].
        -- constructor; [exact Hsorted2 |].
           eapply Forall_impl; [exact Hbound2 |]. cbn. intros p [_ Hn]. lia.
    + exists (Raise e), st1, ev1. cbn [iterrows].
      split; [now rewrite (bind_Raise _ _ _ _ _ Hbody) |].
      split; [exact Htrace1 |]. split; [cbn [length]; lia |].
      destruct Hprog1 as [-> | ->].
      * split; constructor.
      * split; repeat constructor; cbn [length fst]; lia.
Qed.

(** The events of [process_csv], however it ends: the two widgets, the
    events of the rows, and the two clearings if it returns. *)
Lemma process_csv_events df api_key st :
  exists ev tail,
    trace (snd (process_csv http_call py_repr df api_key st))
    = trace st ++ [ProgressBar 0; Placeholder] ++ ev ++ tail
    /\ (tail = [] \/ tail = [ProgressEmpty; StatusEmpty])
    /\ (length (http_calls ev) <= 6 * length df)%nat
    /\ Forall (fun p => snd p = Z.of_nat (length df)
                        /\ 0 < fst p <= Z.of_nat (length df))
         (progress_reports ev)
    /\ StronglySorted (fun p q => fst p < fst q) (progress_reports ev).
Proof.
  destruct (iterrows_events (__init__ api_key) (Z.of_nat (length df)) df 0
              ([], 0, 0) (after st (world st) [ProgressBar 0; Placeholder]))
    as (res & st1 & ev & Hloop & Htrace & Hcalls & Hbound & Hsorted).
  assert (Hrun : process_csv http_call py_repr df api_key st
                 = match res with
                   | Ok vars => (Ok vars, after st1 (world st1)
                                            [ProgressEmpty; StatusEmpty])
                   | Raise e => (Raise e, st1)
                   end).
  { unfold process_csv. unfold bind at 1 2. cbn [emit world trace].
    unfold after in Hloop. cbn [world trace] in Hloop.
    rewrite <- app_assoc. cbn [app].
    destruct res as [vars | e].
    - rewrite (bind_Ok _ _ _ _ _ Hloop).
      unfold bind, emit, ret, after. cbn [world trace].
      now rewrite <- app_assoc.
    - now rewrite (bind_Raise _ _ _ _ _ Hloop). }
  rewrite Hrun. cbn [after trace] in Htrace.
  destruct res as [vars | e]; cbn [snd after trace].
  - exists ev, [ProgressEmpty; StatusEmpty]. rewrite Htrace, <- !app_assoc.
    repeat split; auto.
  - exists ev, []. rewrite Htrace, <- !app_assoc, app_nil_r.
    repeat split; auto.
Qed.

(** X18. A batch of N rows sends at most [2 * MAX_RETRIES * N] HTTP
    requests, however it ends. *)
Theorem batch_http_budget df api_key st :
  exists ev,
    trace (snd (process_csv http_call py_repr df api_key st)) = trace st ++ ev
    /\ Z.of_nat (length (http_calls ev))
       <= 2 * MAX_RETRIES * Z.of_nat (length df).
Proof.
  destruct (process_csv_events df api_key st)
    as (ev & tail & Htrace & Htail & Hcalls & _).
  exists ([ProgressBar 0; Placeholder] ++ ev ++ tail). split; [exact Htrace |].
  rewrite !http_calls_app, !length_app. unfold MAX_RETRIES.
  destruct Htail as [-> | ->]; cbn; lia.
Qed.

(** *** The results of a batch that returns *)

Lemma loop_body_well_formed api total_rows idx r results successful_count
    failed_count st results' successful_count' failed_count' st' :
  loop_body http_call py_repr api total_rows idx r
    (results, successful_count, failed_count) st
  = (Ok (results', successful_count', failed_count'), st') ->
  exists o, results' = results ++ [o] /\ well_formed o.
Proof.
  intros H.
  destruct (normalize_pure (World := World) py_repr r) as [checked Hn].
  specialize (Hn st).
  destruct checked as [[| phone | phone target_profile] | e].
  - rewrite (loop_body_InvalidPhone http_call py_repr _ _ _ _ _ _ _ _ Hn) in H.
    injection H as <- _ _ _. eexists. split; [reflexivity |].
    right. cbn. auto.
  - rewrite (loop_body_MissingProfile http_call py_repr _ _ _ _ _ _ _ _ _ Hn) in H.
    injection H as <- _ _ _. eexists. split; [reflexivity |].
    right. cbn. auto.
  - destruct (process_lead_shape api
                {| phone := phone; target_profile := target_profile;
                   first_name := row_get r "First Name";
                   last_name := row_get r "Last Name" |}
                (announced py_repr total_rows idx r st))
      as (res & w' & ev1 & ev2 & Hlead & _ & Hshape).
    destruct res as [[[success lead_id] error_message] | e].
    + rewrite (loop_body_Normalized http_call py_repr _ _ _ _ _ _ _ _ _ _ _ _ _ _
                 Hn Hlead) in H.
      injection H as <- _ _ _. eexists. split; [reflexivity |].
      unfold well_formed, processed_outcome. cbn.
      destruct Hshape as [(_ & [Hres | (error & Hres)])
                         | (id & Htruthy & _ & [Hres | (error & Herr & Hres)])];
        try discriminate Hres; injection Hres as -> -> ->; auto.
    + rewrite (loop_body_Raise http_call py_repr _ _ _ _ _ _ _ _ _ _ _ _
                 Hn Hlead) in H.
      discriminate.
  - unfold loop_body in H. rewrite (bind_Raise _ _ _ _ _ Hn) in H. discriminate.
Qed.

Lemma iterrows_well_formed api total_rows rows : forall idx results
    successful_count failed_count st vars st',
  iterrows http_call py_repr api total_rows idx rows
    (results, successful_count, failed_count) st = (Ok vars, st') ->
  exists new, fst (fst vars) = results ++ new /\ Forall well_formed new.
Proof.
  induction rows as [| r rows IH];
    intros idx results successful_count failed_count st vars st' H.
  - cbn in H. injection H as <- _. exists []. now rewrite app_nil_r.
  - cbn [iterrows] in H.
    apply bind_inv_Ok in H as ([[results1 s1] f1] & st1 & Hbody & Hrest).
    apply loop_body_well_formed in Hbody as (o & -> & Ho).
    apply IH in Hrest as (new & -> & Hnew).
    exists (o :: new). rewrite <- app_assoc. split; [reflexivity | now constructor].
Qed.

(** X21. When [process_csv] returns, every entry of [results] has one of
    three shapes: SUCCESS with a lead id that passes the truth test and an
    empty error message; FAILED with the empty lead id; FAILED with a truthy
    lead id and a non-empty error message.  No entry has another status,
    and no SUCCESS entry lacks its lead id or carries an error. *)
Theorem results_are_well_formed df api_key st results successful_count
    failed_count st' :
  process_csv http_call py_repr df api_key st
  = (Ok (results, successful_count, failed_count), st') ->
  Forall well_formed results.
Proof.
  intros H. unfold process_csv in H.
  apply bind_inv_Ok in H as (? & st1 & _ & H).
  apply bind_inv_Ok in H as (? & st2 & _ & H).
  apply bind_inv_Ok in H as (vars & st3 & Hloop & H).
  apply bind_inv_Ok in H as (? & st4 & _ & H).
  apply bind_inv_Ok in H as (? & st5 & _ & H).
  unfold ret in H. injection H as -> _.
  apply iterrows_well_formed in Hloop as (new & Hnew & Hall).
  cbn in Hnew. now subst.
Qed.

(** *** The rows a batch can read *)

Lemma normalize_of_readable r :
  if readable py_repr r
  then exists checked, forall st, normalize py_repr r st = (Ok checked, st)
  else forall st, normalize py_repr r st = (Raise (AttributeError "strip"), st).
Proof.
  unfold readable, normalize, bind, method_strip, ret, raise.
  destruct (is_empty (join_filter _ _)); [eauto |].
  destruct (row_get r "Customer Profile") as [| | | | s | |]; try reflexivity.
  destruct (is_empty (strip s)) eqn:E; [| rewrite ?E; eauto].
  destruct (row_get r "Customer Profile - MOVE") as [| | | | s' | |];
    try reflexivity.
  destruct (is_empty (strip s')); eauto.
Qed.

Lemma loop_body_of_readable api total_rows idx r vars st :
  readable py_repr r = true -> bodies_are_dicts http_call ->
  exists vars' st',
    loop_body http_call py_repr api total_rows idx r vars st = (Ok vars', st').
Proof.
  intros Hread Hdicts. destruct vars as [[results successful_count] failed_count].
  pose proof (normalize_of_readable r) as Hn. rewrite Hread in Hn.
  destruct Hn as [[| phone | phone target_profile] Hn]; specialize (Hn st).
  - rewrite (loop_body_InvalidPhone http_call py_repr _ _ _ _ _ _ _ _ Hn). eauto.
  - rewrite (loop_body_MissingProfile http_call py_repr _ _ _ _ _ _ _ _ _ Hn). eauto.
  - destruct (process_lead_returns http_call py_repr api
                {| phone := phone; target_profile := target_profile;
                   first_name := row_get r "First Name";
                   last_name := row_get r "Last Name" |}
                (announced py_repr total_rows idx r st) Hdicts)
      as ([[success lead_id] error_message] & st2 & Hlead).
    rewrite (loop_body_Normalized http_call py_repr _ _ _ _ _ _ _ _ _ _ _ _ _ _
               Hn Hlead).
    eauto.
Qed.

Lemma loop_body_of_unreadable api total_rows idx r vars st :
  readable py_repr r = false ->
  loop_body http_call py_repr api total_rows idx r vars st
  = (Raise (AttributeError "strip"), st).
Proof.
  intros Hread. destruct vars as [[results successful_count] failed_count].
  pose proof (normalize_of_readable r) as Hn. rewrite Hread in Hn.
  unfold loop_body. now rewrite (bind_Raise _ _ _ _ _ (Hn st)).
Qed.

Lemma iterrows_of_readable api total_rows rows : forall idx vars st,
  Forall (fun r => readable py_repr r = true) rows ->
  bodies_are_dicts http_call ->
  exists vars' st',
    iterrows http_call py_repr api total_rows idx rows vars st = (Ok vars', st').
Proof.
  induction rows as [| r rows IH]; intros idx vars st Hrows Hdicts.
  - cbn. unfold ret. eauto.
  - inversion Hrows as [| r0 rows0 Hr Hrest]; subst.
    destruct (loop_body_of_readable api total_rows idx r vars st Hr Hdicts)
      as (vars1 & st1 & Hbody).
    cbn [iterrows]. rewrite (bind_Ok _ _ _ _ _ Hbody). now apply IH.
Qed.

Lemma iterrows_of_unreadable api total_rows rows : forall idx vars st,
  Exists (fun r => readable py_repr r = false) rows ->
  exists e st',
    iterrows http_call py_repr api total_rows idx rows vars st = (Raise e, st').
Proof.
  induction rows as [| r rows IH]; intros idx vars st Hrows;
    inversion Hrows as [r0 rows0 Hr | r0 rows0 Hrest]; subst; cbn [iterrows].
  - rewrite (bind_Raise _ _ _ _ _
               (loop_body_of_unreadable api total_rows idx r vars st Hr)).
    eauto.
  - destruct (loop_body http_call py_repr api total_rows idx r vars st)
      as [[vars1 | e] st1] eqn:Hbody.
    + rewrite (bind_Ok _ _ _ _ _ Hbody). now apply IH.
    + rewrite (bind_Raise _ _ _ _ _ Hbody). eauto.
Qed.

(** X23. One row that validation cannot read loses the whole batch: when
    some row has a valid phone and a profile cell, among those that
    validation gets to, that is not text, [process_csv] raises and returns
    no results, not even for the rows before it, whatever the server
    does. *)
Theorem one_unreadable_row_aborts_the_batch df api_key st :
  Exists (fun r => readable py_repr r = false) df ->
  exists e, fst (process_csv http_call py_repr df api_key st) = Raise e.
Proof.
  intros Hrows.
  destruct (iterrows_of_unreadable (__init__ api_key) (Z.of_nat (length df)) df 0
              ([], 0, 0)
              (after st (world st) [ProgressBar 0; Placeholder]) Hrows)
    as (e & st1 & Hloop).
  exists e. unfold process_csv. unfold bind at 1 2. cbn [emit world trace].
  unfold after in Hloop. cbn [world trace] in Hloop.
  rewrite <- app_assoc. cbn [app].
  now rewrite (bind_Raise _ _ _ _ _ Hloop).
Qed.

(** *** Frames with an index of their own *)

(** A row with a text label leaves the loop body by an exception, in the
    state the body started from. *)
Lemma text_label_raises api total_rows s r vars st :
  exists e,
    loop_body_indexed http_call py_repr api total_rows (TextLabel s) r vars st
    = (Raise e, st)
    /\ (e = TypeError "str + int"
        \/ (e = AttributeError "strip" /\ readable py_repr r = false)).
Proof.
  cbn [loop_body_indexed]. unfold bind.
  pose proof (normalize_of_readable r) as Hn.
  destruct (readable py_repr r).
  - destruct Hn as [checked Hn]. rewrite Hn. eauto.
  - rewrite Hn. eauto.
Qed.

Lemma loop_body_indexed_inv api total_rows idx r vars st vars' st' :
  loop_body_indexed http_call py_repr api total_rows idx r vars st
  = (Ok vars', st') ->
  exists i,
    idx = IntLabel i
    /\ loop_body http_call py_repr api total_rows i r vars st = (Ok vars', st').
Proof.
  destruct idx as [i | s]; [eauto |].
  destruct (text_label_raises api total_rows s r vars st) as (e & -> & _).
  discriminate.
Qed.

(** Under the default index the labels are the positions. *)
Lemma iterrows_indexed_default api total_rows : forall df k vars st,
  df_index df = map (fun i => IntLabel (Z.of_nat i)) (seq k (length df)) ->
  iterrows_indexed http_call py_repr api total_rows df vars st
  = iterrows http_call py_repr api total_rows (Z.of_nat k) (df_rows df) vars st.
Proof.
  induction df as [| [idx r] df IH]; intros k vars st H; [reflexivity |].
  cbn in H. injection H as -> H.
  cbn [iterrows_indexed iterrows df_rows map snd loop_body_indexed].
  unfold bind.
  destruct (loop_body http_call py_repr api total_rows (Z.of_nat k) r vars st)
    as [[vars1 | e] st1]; [| reflexivity].
  rewrite (IH (S k) vars1 st1 H). unfold df_rows.
  now replace (Z.of_nat (S k)) with (Z.of_nat k + 1) by lia.
Qed.

Lemma process_csv_indexed_default df api_key st :
  df_index df = RangeIndex (length df) ->
  process_csv_indexed http_call py_repr df api_key st
  = process_csv http_call py_repr (df_rows df) api_key st.
Proof.
  intros H. unfold process_csv_indexed, process_csv.
  unfold df_rows at 1. rewrite length_map.
  unfold bind at 1 2 6 7. cbn [emit].
  unfold bind at 1 4.
  now rewrite (iterrows_indexed_default _ _ df 0%nat _ _ H).
Qed.

Lemma process_csv_indexed_unfold df api_key st :
  process_csv_indexed http_call py_repr df api_key st
  = match iterrows_indexed http_call py_repr (__init__ api_key)
            (Z.of_nat (length df)) df ([], 0, 0)
            (after st (world st) [ProgressBar 0; Placeholder]) with
    | (Ok vars, st1) => (Ok vars, after st1 (world st1) [ProgressEmpty; StatusEmpty])
    | (Raise e, st1) => (Raise e, st1)
    end.
Proof.
  unfold process_csv_indexed. unfold bind at 1 2. cbn [emit world trace].
  unfold after at 1. cbn [world trace]. rewrite <- app_assoc. cbn [app].
  unfold bind at 1.
  destruct (iterrows_indexed _ _ _ _ _ _ _) as [[vars | e] st1]; [| reflexivity].
  unfold bind, emit, ret, after. cbn [world trace]. now rewrite <- app_assoc.
Qed.

(** A normal exit of the loop: no label was text, and each new outcome
    carries the label of its row plus 2 and the two names of its row. *)
Lemma iterrows_indexed_inv api total_rows : forall df results successful_count
    failed_count st vars st',
  iterrows_indexed http_call py_repr api total_rows df
    (results, successful_count, failed_count) st = (Ok vars, st') ->
  exists labels new,
    df_index df = map IntLabel labels
    /\ fst (fst vars) = results ++ new
    /\ map Row_Number new = map (fun i => i + 2) labels
    /\ map First_Name new = map (fun r => row_get r "First Name") (df_rows df)
    /\ map Last_Name new = map (fun r => row_get r "Last Name") (df_rows df).
Proof.
  induction df as [| [idx r] df IH];
    intros results successful_count failed_count st vars st' H.
  - cbn in H. inversion H; subst. exists [], []. cbn. now rewrite app_nil_r.
  - cbn [iterrows_indexed] in H.
    apply bind_inv_Ok in H as (vars1 & st1 & Hbody & Hrest).
    apply loop_body_indexed_inv in Hbody as (i & -> & Hbody).
    apply loop_body_inv in Hbody as (o & (Hnum & Hfirst & Hlast) & -> & _).
    apply IH in Hrest as (labels & new & Hidx & Hres & Hnums & Hfirsts & Hlasts).
    exists (i :: labels), (o :: new).
    unfold df_index, df_rows in *. cbn [map fst snd].
    rewrite Hidx, Hres, Hnum, Hfirst, Hlast, Hnums, Hfirsts, Hlasts.
    rewrite <- app_assoc. now cbn.
Qed.

(** X19. With the default index, every progress report of a batch of N
    rows is a fraction [n / N] with [1 <= n <= N], so that the value
    handed to the progress bar lies in (0, 1], the range [st.progress]
    documents for a float, and the reports come in strictly increasing
    order.  The default index is what makes it so: [n] is the label of
    the row plus 1. *)
Theorem progress_stays_in_range_and_grows df api_key st :
  df_index df = RangeIndex (length df) ->
  exists ev,
    trace (snd (process_csv_indexed http_call py_repr df api_key st))
    = trace st ++ ev
    /\ Forall (fun p => snd p = Z.of_nat (length df)
                        /\ 1 <= fst p <= snd p)
         (progress_reports ev)
    /\ StronglySorted (fun p q => fst p < fst q) (progress_reports ev).
Proof.
  intros Hidx. rewrite (process_csv_indexed_default df api_key st Hidx).
  destruct (process_csv_events (df_rows df) api_key st)
    as (ev & tail & Htrace & Htail & _ & Hbound & Hsorted).
  unfold df_rows in Hbound. rewrite length_map in Hbound.
  exists ([ProgressBar 0; Placeholder] ++ ev ++ tail). split; [exact Htrace |].
  assert (Hrep : progress_reports ([ProgressBar 0; Placeholder] ++ ev ++ tail)
                 = progress_reports ev).
  { rewrite !progress_reports_app. destruct Htail as [-> | ->]; cbn;
      now rewrite app_nil_r. }
  rewrite Hrep. split; [| exact Hsorted].
  eapply Forall_impl; [exact Hbound |]. intros p [Hd Hn]. rewrite Hd. lia.
Qed.

(** X20. When [process_csv] returns, no row had a text label, the Row
    Number of each entry of [results] is the label of its row plus 2, and
    the First Name and Last Name columns are those of the input rows, in
    the order of the input.  With the default index the row numbers are
    therefore 2, 3, ..., N + 1 (position plus 2, for the header line and
    the 1-based count of a spreadsheet); with another index they are
    not. *)
Theorem row_numbers_follow_the_input df api_key st results successful_count
    failed_count st' :
  process_csv_indexed http_call py_repr df api_key st
  = (Ok (results, successful_count, failed_count), st') ->
  exists labels,
    df_index df = map IntLabel labels
    /\ map Row_Number results = map (fun i => i + 2) labels
    /\ map First_Name results = map (fun r => row_get r "First Name") (df_rows df)
    /\ map Last_Name results = map (fun r => row_get r "Last Name") (df_rows df)
    /\ (df_index df = RangeIndex (length df) ->
        map Row_Number results
        = map (fun i => Z.of_nat i + 2) (seq 0 (length df))).
Proof.
  intros H. rewrite process_csv_indexed_unfold in H.
  destruct (iterrows_indexed _ _ _ _ _ _ _) as [[vars | e] st1] eqn:Hloop;
    [| discriminate].
  injection H as -> _.
  apply iterrows_indexed_inv in Hloop
    as (labels & new & Hidx & Hres & Hnums & Hfirsts & Hlasts).
  cbn [fst app] in Hres. subst new.
  exists labels. repeat split; try assumption.
  intros Hdefault. rewrite Hnums. rewrite Hidx in Hdefault.
  unfold RangeIndex in Hdefault. rewrite <- (List.map_map Z.of_nat IntLabel) in Hdefault.
  assert (Hl : labels = map Z.of_nat (seq 0 (length df))).
  { revert Hdefault. generalize (map Z.of_nat (seq 0 (length df))).
    clear. induction labels as [| i labels IH]; intros [| j l] H;
      cbn in H; try discriminate; [reflexivity |].
    injection H as -> H. f_equal. now apply IH. }
  rewrite Hl, List.map_map. reflexivity.
Qed.

(** X22. The batch runs to its end on the frames it can read: when the
    index is the default one, every row either fails the phone check or
    has text in the profile cells that validation gets to, and every
    truthy body that the server sends with a 200 is an object,
    [process_csv] returns, with one outcome per row. *)
Theorem batch_completes_on_readable_rows df api_key st :
  df_index df = RangeIndex (length df) ->
  Forall (fun r => readable py_repr r = true) (df_rows df) ->
  bodies_are_dicts http_call ->
  exists results successful_count failed_count st',
    process_csv_indexed http_call py_repr df api_key st
    = (Ok (results, successful_count, failed_count), st')
    /\ length results = length df.
Proof.
  intros Hidx Hrows Hdicts.
  rewrite (process_csv_indexed_default df api_key st Hidx).
  destruct (iterrows_of_readable (__init__ api_key)
              (Z.of_nat (length (df_rows df))) (df_rows df) 0 ([], 0, 0)
              (after st (world st) [ProgressBar 0; Placeholder]) Hrows Hdicts)
    as ([[results successful_count] failed_count] & st1 & Hloop).
  assert (H : process_csv http_call py_repr (df_rows df) api_key st
              = (Ok (results, successful_count, failed_count),
                 after st1 (world st1) [ProgressEmpty; StatusEmpty])).
  { unfold process_csv. unfold bind at 1 2. cbn [emit world trace].
    unfold after in Hloop. cbn [world trace] in Hloop.
    rewrite <- app_assoc. cbn [app].
    rewrite (bind_Ok _ _ _ _ _ Hloop).
    unfold bind, emit, ret, after. cbn [world trace].
    now rewrite <- app_assoc. }
  exists results, successful_count, failed_count. eexists. split; [exact H |].
  apply process_csv_inv in H as (_ & Hlen & _).
  rewrite Hlen. unfold df_rows. apply length_map.
Qed.



(** *** The summary that [main] shows *)

(** X25. After a batch that returns, what [main] shows is consistent:
    Total Processed is the number of rows of the file and the sum of
    Successful and Failed; the table of failed leads has exactly Failed
    rows, all of them FAILED; and the table is shown exactly when it is
    not empty. *)
Theorem summary_is_consistent df api_key st returned st' :
  process_csv http_call py_repr df api_key st = (Ok returned, st') ->
  Total_Processed (summary returned) = Z.of_nat (length df)
  /\ Total_Processed (summary returned)
     = Successful (summary returned) + Failed (summary returned)
  /\ Z.of_nat (length (failed_df (fst (fst returned)))) = Failed (summary returned)
  /\ Forall (fun o => Status o = "FAILED") (failed_df (fst (fst returned)))
  /\ (shows_failed returned = true <-> failed_df (fst (fst returned)) <> []).
Proof.
  destruct returned as [[results successful_count] failed_count]. intros H.
  apply process_csv_inv in H as (_ & Hlen & Hs & Hf & Hsum).
  cbn [summary Total_Processed Successful Failed shows_failed fst].
  assert (Hfailed : Z.of_nat (length (failed_df results)) = failed_count)
    by (rewrite Hf; reflexivity).
  repeat split.
  - now rewrite Hlen.
  - rewrite Hlen. lia.
  - exact Hfailed.
  - unfold failed_df. apply List.Forall_forall. intros o Ho.
    apply List.filter_In in Ho as [_ Ho]. now apply String.eqb_eq.
  - intros Hshow Hnil. apply Z.ltb_lt in Hshow. rewrite Hnil in Hfailed.
    cbn in Hfailed. lia.
  - intros Hne. apply Z.ltb_lt. rewrite <- Hfailed.
    destruct (failed_df results); [contradiction | cbn; lia].
Qed.

End MoreProperties.

(** *** The checks of [main] before the batch *)

Lemma in_columns_In col columns : in_columns col columns = true <-> In col columns.
Proof.
  unfold in_columns. rewrite existsb_exists. split.
  - intros (c & Hin & Heq). apply String.eqb_eq in Heq. now subst.
  - intros Hin. exists col. split; [exact Hin | apply String.eqb_refl].
Qed.

(** X24. [main] offers to process a file exactly when its header has the
    three required columns and at least one of the two profile columns,
    each spelled exactly; a missing required column is reported first,
    whether or not a profile column is there, and the report lists the
    missing ones in the order First Name, Last Name, Mobile Phone. *)
Theorem preflight_accepts_complete_headers columns :
  (check_columns columns = ProcessButton
   <-> (In "First Name" columns /\ In "Last Name" columns
        /\ In "Mobile Phone" columns)
       /\ (In "Customer Profile" columns
           \/ In "Customer Profile - MOVE" columns))
  /\ (check_columns columns = MissingProfileColumn
      <-> (In "First Name" columns /\ In "Last Name" columns
           /\ In "Mobile Phone" columns)
          /\ ~ In "Customer Profile" columns
          /\ ~ In "Customer Profile - MOVE" columns)
  /\ (forall listed,
        check_columns columns = MissingRequiredColumns listed ->
        listed
        = join ", "
            (List.filter (fun col => negb (in_columns col columns))
               ["First Name"; "Last Name"; "Mobile Phone"])
        /\ ~ (In "First Name" columns /\ In "Last Name" columns
              /\ In "Mobile Phone" columns)).
Proof.
  unfold check_columns, missing_columns, has_profile_column, required_columns,
    profile_columns.
  cbn [List.filter existsb].
  pose proof (in_columns_In "First Name" columns) as H1.
  pose proof (in_columns_In "Last Name" columns) as H2.
  pose proof (in_columns_In "Mobile Phone" columns) as H3.
  pose proof (in_columns_In "Customer Profile" columns) as H4.
  pose proof (in_columns_In "Customer Profile - MOVE" columns) as H5.
  destruct (in_columns "First Name" columns),
    (in_columns "Last Name" columns), (in_columns "Mobile Phone" columns),
    (in_columns "Customer Profile" columns),
    (in_columns "Customer Profile - MOVE" columns);
    cbn [negb orb];
    (split; [| split]);
    try (split; [discriminate || (intros _; intuition congruence)
                | intuition congruence]);
    try (intros listed [= <-]; split; [reflexivity | intuition congruence]);
    try (intros listed; discriminate).
Qed.

(* ===================================================================== *)
(** ** The further properties on concrete runs *)

Lemma transport_attempts_witness :
  exists delays,
    trace (snd (_make_request_with_retry scripted demo_api "GET"
                  (lookup_endpoint demo_api) lookup_params
                  (start [status_only 500; Timeout; found_abc123])))
    = [] ++ flat_map (fun d => [Http lookup_abc; Sleep d]) delays
      ++ [Http lookup_abc]
    /\ Z.of_nat (length delays) < MAX_RETRIES.
Proof.
  destruct (transport_attempts_are_bounded scripted demo_api "GET" GET
              (lookup_endpoint demo_api) lookup_params
              (start [status_only 500; Timeout; found_abc123]) eq_refl)
    as (delays & Htrace & Hlen & _).
  exists delays. split; assumption.
Defined.

Lemma transient_failures_witness :
  _make_request_with_retry scripted demo_api "GET" (lookup_endpoint demo_api)
    lookup_params (start [status_only 500; Timeout; found_abc123])
  = (Ok (true, PDict [("id", PStr "abc123")], ""),
     after (start [status_only 500; Timeout; found_abc123]) []
       (retries lookup_abc [status_only 500; Timeout] ++ [Http lookup_abc])).
Proof.
  apply (transient_failures_then_success scripted demo_api "GET" GET
           (lookup_endpoint demo_api) lookup_params
           (start [status_only 500; Timeout; found_abc123])
           [status_only 500; Timeout]
           {| status_code := 200; text := "";
              json := Some (PDict [("id", PStr "abc123")]) |}).
  - reflexivity.
  - repeat (eapply answers_cons; [reflexivity |]). apply answers_nil.
  - repeat constructor.
  - reflexivity.
  - reflexivity.
  - reflexivity.
Defined.

Lemma terminal_errors_witness :
  _make_request_with_retry scripted demo_api "GET" (lookup_endpoint demo_api)
    lookup_params (start [Timeout; status_only 401; found_abc123])
  = (Ok (false, PNone, "Unauthorized - check your API key"),
     after (start [Timeout; status_only 401; found_abc123]) [found_abc123]
       (retries lookup_abc [Timeout] ++ [Http lookup_abc])).
Proof.
  apply (terminal_errors_are_not_retried scripted demo_api "GET" GET
           (lookup_endpoint demo_api) lookup_params
           (start [Timeout; status_only 401; found_abc123])
           [Timeout] (status_only 401)).
  - reflexivity.
  - repeat (eapply answers_cons; [reflexivity |]). apply answers_nil.
  - repeat constructor.
  - reflexivity.
  - reflexivity.
Defined.

Lemma exhausted_retries_witness :
  _make_request_with_retry scripted demo_api "GET" (lookup_endpoint demo_api)
    lookup_params (start [status_only 429; ConnectionError; unavailable])
  = (Ok (false, PNone, "HTTP 503: down"),
     after (start [status_only 429; ConnectionError; unavailable]) []
       ([Http lookup_abc; Sleep 2; Http lookup_abc; Sleep 1] ++ [Http lookup_abc])).
Proof.
  apply (exhausted_retries_report_the_last_failure scripted demo_api "GET" GET
           (lookup_endpoint demo_api) lookup_params
           (start [status_only 429; ConnectionError; unavailable])
           [status_only 429; ConnectionError] unavailable).
  - reflexivity.
  - repeat (eapply answers_cons; [reflexivity |]). apply answers_nil.
  - repeat constructor.
  - reflexivity.
Defined.

Lemma lookup_raises_witness :
  lookup_lead scripted plain_repr demo_api "5551234567"
    (start [ok_json (PList [PInt 1])])
  = (Raise (AttributeError "get"),
     after (start [ok_json (PList [PInt 1])]) []
       (retries lookup_abc [] ++ [Http lookup_abc])).
Proof.
  apply (lookup_raises_on_truthy_non_object scripted plain_repr demo_api
           "5551234567" (start [ok_json (PList [PInt 1])]) []
           {| status_code := 200; text := ""; json := Some (PList [PInt 1]) |}
           (PList [PInt 1])).
  - repeat (eapply answers_cons; [reflexivity |]). apply answers_nil.
  - constructor.
  - reflexivity.
  - reflexivity.
  - reflexivity.
  - reflexivity.
  - discriminate.
Defined.

Lemma missing_id_witness :
  exists error,
    lookup_lead scripted plain_repr demo_api "5551234567"
      (start [ok_json (PDict [("name", PStr "Ada")])])
    = (Ok (false, PNone, error),
       after (start [ok_json (PDict [("name", PStr "Ada")])]) []
         (retries lookup_abc [] ++ [Http lookup_abc]))
    /\ error = "No lead ID in response. Response: {'name': 'Ada'}"
    /\ (String.length error <= 134)%nat.
Proof.
  destruct (missing_id_is_reported_with_a_bounded_quote scripted plain_repr
              demo_api "5551234567"
              (start [ok_json (PDict [("name", PStr "Ada")])]) []
              {| status_code := 200; text := "";
                 json := Some (PDict [("name", PStr "Ada")]) |}
              [("name", PStr "Ada")] [])
    as (error & Hrun & Herror & Hlen & _).
  - repeat (eapply answers_cons; [reflexivity |]). apply answers_nil.
  - constructor.
  - reflexivity.
  - reflexivity.
  - reflexivity.
  - discriminate.
  - reflexivity.
  - exists error. split; [exact Hrun |]. split; [exact Herror | exact Hlen].
Defined.

Example switch_accepts_a_null_body :
  switch_profile scripted plain_repr demo_api (PStr "abc123") "VIP"
    (start [unavailable; ok_json PNone])
  = (Ok (true, ""),
     after (start [unavailable; ok_json PNone]) []
       (retries switch_abc [unavailable] ++ [Http switch_abc])).
Proof. reflexivity. Qed.

Lemma normalized_fields_witness :
  normalize plain_repr fallback_row idle = (Ok (Normalized "5550199" "Gold"), idle)
  /\ all_chars isdigit "5550199" = true
  /\ strip "Gold" = "Gold".
Proof.
  destruct (normalized_fields_are_clean plain_repr fallback_row idle
              "5550199" "Gold" idle eq_refl)
    as (_ & _ & Hdigits & _ & Hstrip & _).
  split; [reflexivity |]. split; [exact Hdigits | exact Hstrip].
Defined.

Lemma fallback_unread_witness :
  loop_body scripted plain_repr demo_api 1 0
    (<["Customer Profile - MOVE" := NaN]> vip_row) ([], 0, 0)
    (start [found_abc123; ok_json PNone])
  = loop_body scripted plain_repr demo_api 1 0 vip_row ([], 0, 0)
      (start [found_abc123; ok_json PNone]).
Proof.
  apply (fallback_is_read_only_when_needed scripted plain_repr demo_api 1 0
           vip_row ([], 0, 0) (start [found_abc123; ok_json PNone]) NaN).
  right. intros s [= <-]. discriminate.
Defined.

Lemma blank_primary_witness :
  loop_body scripted plain_repr demo_api 1 0 fallback_row ([], 0, 0)
    (start [found_abc123; ok_json PNone])
  = loop_body scripted plain_repr demo_api 1 0
      (<["Customer Profile" := PStr " Gold "]> fallback_row) ([], 0, 0)
      (start [found_abc123; ok_json PNone]).
Proof.
  apply (blank_primary_stands_for_the_fallback scripted plain_repr demo_api 1 0
           fallback_row ([], 0, 0) (start [found_abc123; ok_json PNone]) " ");
    reflexivity.
Defined.

Lemma row_numbers_witness :
  exists results successful_count failed_count st',
    process_csv_indexed scripted plain_repr
      (with_default_index [vip_row; dashes_row; blank_profile_row]) "key"
      (start [found_abc123; ok_json (PDict [])])
    = (Ok (results, successful_count, failed_count), st')
    /\ map Row_Number results = [2; 3; 4]
    /\ map First_Name results = [PStr "Ada"; PStr "Bob"; PStr "Cy"].
Proof.
  eexists _, _, _, _. split; [vm_compute; reflexivity |].
  destruct (row_numbers_follow_the_input scripted plain_repr
              (with_default_index [vip_row; dashes_row; blank_profile_row]) "key"
              (start [found_abc123; ok_json (PDict [])]) _ _ _ _ eq_refl)
    as (labels & _ & _ & Hfirst & _ & Hnum).
  split; [exact (Hnum eq_refl) | exact Hfirst].
Defined.

Lemma progress_stays_witness :
  exists ev,
    trace (snd (process_csv_indexed scripted plain_repr
                  (with_default_index [vip_row; dashes_row; fallback_row]) "key"
                  (start [found_abc123; ok_json (PDict [])])))
    = [] ++ ev
    /\ Forall (fun p => snd p = 3 /\ 1 <= fst p <= snd p) (progress_reports ev).
Proof.
  destruct (progress_stays_in_range_and_grows scripted plain_repr
              (with_default_index [vip_row; dashes_row; fallback_row]) "key"
              (start [found_abc123; ok_json (PDict [])]) eq_refl)
    as (ev & Htrace & Hrange & _).
  exists ev. split; [exact Htrace | exact Hrange].
Defined.

Lemma results_well_formed_witness :
  exists results successful_count failed_count st',
    process_csv scripted plain_repr [vip_row; dashes_row; blank_profile_row] "key"
      (start [found_abc123; status_only 404])
    = (Ok (results, successful_count, failed_count), st')
    /\ Forall well_formed results.
Proof.
  eexists _, _, _, _. split; [vm_compute; reflexivity |].
  exact (results_are_well_formed scripted plain_repr
           [vip_row; dashes_row; blank_profile_row] "key"
           (start [found_abc123; status_only 404]) _ _ _ _ eq_refl).
Defined.

Lemma steady_bodies_are_dicts : bodies_are_dicts (steady found_abc123).
Proof.
  intros req w response w' data Hcall _ Hjson _.
  injection Hcall as <- _. injection Hjson as <-. eauto.
Defined.

Lemma batch_completes_witness :
  exists results successful_count failed_count st',
    process_csv_indexed (steady found_abc123) plain_repr
      (with_default_index [vip_row; dashes_row; fallback_row; blank_profile_row])
      "key" idle
    = (Ok (results, successful_count, failed_count), st')
    /\ length results = 4%nat.
Proof.
  apply (batch_completes_on_readable_rows (steady found_abc123) plain_repr
           (with_default_index
              [vip_row; dashes_row; fallback_row; blank_profile_row])
           "key" idle).
  - reflexivity.
  - repeat constructor.
  - exact steady_bodies_are_dicts.
Defined.


Lemma unreadable_row_witness :
  exists e,
    fst (process_csv scripted plain_repr [vip_row; move_row] "key"
           (start [found_abc123; ok_json PNone]))
    = Raise e.
Proof.
  apply (one_unreadable_row_aborts_the_batch scripted plain_repr
           [vip_row; move_row] "key" (start [found_abc123; ok_json PNone])).
  right. left. reflexivity.
Defined.

Lemma summary_witness :
  exists returned st',
    process_csv scripted plain_repr [vip_row; dashes_row; blank_profile_row] "key"
      (start [found_abc123; ok_json (PDict [])])
    = (Ok returned, st')
    /\ summary returned
       = {| Total_Processed := 3; Successful := 1; Failed := 2 |}
    /\ Z.of_nat (length (failed_df (fst (fst returned)))) = 2
    /\ shows_failed returned = true.
Proof.
  eexists _, _. split; [vm_compute; reflexivity |].
  pose proof (summary_is_consistent scripted plain_repr
                [vip_row; dashes_row; blank_profile_row] "key"
                (start [found_abc123; ok_json (PDict [])]) _ _ eq_refl)
    as (_ & _ & Hfailed & _ & _).
  split; [reflexivity |]. split; [exact Hfailed | reflexivity].
Defined.

(** *** Further runs of the added properties *)

(** A file whose data lines have one field more than the header: the
    first field is the label, and [idx + 2] fails on it. *)
Example text_label_on_a_rejected_row :
  process_csv_indexed scripted plain_repr [(TextLabel "Ada", dashes_row)] "key"
    (start [])
  = (Raise (TypeError "str + int"),
     after (start []) [] [ProgressBar 0; Placeholder]).
Proof. reflexivity. Qed.

Example check_columns_ex :
  check_columns ["First Name"; "Last Name"; "Mobile Phone"; "Customer Profile - MOVE"]
  = ProcessButton
  /\ check_columns ["Last Name"; "Customer Profile"]
     = MissingRequiredColumns "First Name, Mobile Phone"
  /\ check_columns ["first name"; "Last Name"; "Mobile Phone"; "Customer Profile"]
     = MissingRequiredColumns "First Name"
  /\ check_columns ["First Name"; "Last Name"; "Mobile Phone"] = MissingProfileColumn.
Proof. repeat split; reflexivity. Qed.

Example lowercase_method :
  _make_request_with_retry scripted demo_api "get" (lookup_endpoint demo_api)
    lookup_params (start [found_abc123])
  = _make_request_with_retry scripted demo_api "GET" (lookup_endpoint demo_api)
      lookup_params (start [found_abc123]).
Proof. reflexivity. Qed.
